(** * django-proxy-admin: the parent model admin and its dispatch to child admins

    A shallow embedding of [proxy_admin.py].  The class [ParentModelAdmin]
    is a record of its attributes; its methods are computations in a small
    state-and-exception monad over that record.  The host framework (the
    admin site, the child admins, the URL resolver, the permission system)
    is not part of the module: it enters through the record [Framework] and
    through the view functions stored in the child admins. *)

From Stdlib Require Import ZArith String Ascii List DecimalString.
From stdpp Require Import base option gmap strings list fin_maps.

Local Open Scope Z_scope.
Local Open Scope string_scope.

(** ** Python values and built-in operations *)

Module Py.

(** The exception classes that occur in the module, and the framework's
    own under [Other]. *)
Inductive ExnClass :=
| Http404
| PermissionDenied
| RuntimeError
| NotImplementedError
| TypeError
| KeyError
| IndexError
| ValueError
| AttributeError
| DoesNotExist
| Other (name : string).

#[global] Instance ExnClass_eq_dec : EqDecision ExnClass.
Proof. solve_decision. Defined.

(** The class hierarchy among these classes: [NotImplementedError] derives
    from [RuntimeError]; no other of them derives from another.  A class
    under [Other] is taken for itself. *)
Definition subclass_of (c base : ExnClass) : bool :=
  bool_decide (c = base)
  || (bool_decide (c = NotImplementedError)
      && bool_decide (base = RuntimeError)).

(** An exception of class [c] is an instance of one of [classes]. *)
Definition instance_of_any (c : ExnClass) (classes : list ExnClass) : bool :=
  existsb (subclass_of c) classes.

(** Where an exception was raised, as its traceback tells: by a [raise]
    statement of [proxy_admin.py], by a built-in operation that the
    module applies (a subscript, a conversion, an attribute access), or
    inside framework or child-admin code that the module calls. *)
Inductive Origin := ByModule | ByBuiltin | ByCallee.

Record Exn := mkExn { exn_class : ExnClass; exn_origin : Origin }.

Inductive Result (E A : Type) :=
| Ok (a : A)
| Raise (e : E).
Arguments Ok {E A} a.
Arguments Raise {E A} e.

(** Arguments passed on through [*args, **kwargs]. *)
Inductive Value :=
| VNone
| VInt (z : Z)
| VStr (s : string).

Record CallArgs := mkArgs { args : list Value; kwargs : list (string * Value) }.

(** [str(n)] and ['{0}'.format(n)] for an integer. *)
Definition str (n : Z) : string := NilZero.string_of_int (Z.to_int n).

(** [s.find(c)] for a one-character needle: the lowest index, or -1. *)
Fixpoint find_from (c : ascii) (s : string) (i : Z) : Z :=
  match s with
  | EmptyString => -1
  | String d s' => if Ascii.eqb c d then i else find_from c s' (i + 1)
  end.
Definition find (s : string) (c : ascii) : Z := find_from c s 0.

(** [s[0:pos]] for a position that [find] returned (so not negative). *)
Definition slice_to (s : string) (pos : Z) : string :=
  substring 0 (Z.to_nat pos) s.

(** [s.lower()] on ASCII letters. *)
Definition lower_ascii (c : ascii) : ascii :=
  let n := nat_of_ascii c in
  if ((65 <=? n) && (n <=? 90))%nat then ascii_of_nat (n + 32) else c.
Fixpoint lower (s : string) : string :=
  match s with
  | EmptyString => EmptyString
  | String c s' => String (lower_ascii c) (lower s')
  end.

(** [dict(pairs)]: a later pair replaces an earlier one with the same key. *)
Definition dict {V} (pairs : list (Z * V)) : gmap Z V :=
  fold_left (fun m p => <[p.1 := p.2]> m) pairs ∅.

(** A plain decimal literal, with an optional sign: what [int] and [long]
    accept at least.  The conversions themselves belong to the Python
    runtime and are taken from the [Framework] record. *)
Definition digit (c : ascii) : option Z :=
  let n := nat_of_ascii c in
  if ((48 <=? n) && (n <=? 57))%nat then Some (Z.of_nat (n - 48)) else None.
Fixpoint digits (acc : Z) (s : string) : option Z :=
  match s with
  | EmptyString => Some acc
  | String c s' =>
      match digit c with
      | Some d => digits (acc * 10 + d) s'
      | None => None
      end
  end.
Definition unsigned_literal (s : string) : option Z :=
  match s with
  | EmptyString => None
  | _ => digits 0 s
  end.
Definition decimal_literal (s : string) : option Z :=
  match s with
  | String "-"%char s' => Z.opp <$> unsigned_literal s'
  | String "+"%char s' => unsigned_literal s'
  | _ => unsigned_literal s
  end.

End Py.
Export Py.

(** ** The parts of the host framework that the module touches *)

Module Django.

(** A model class.  A class is identified by its qualified name [m_name];
    [m_mro] lists the class and its ancestors, [objects] the rows that its
    manager sees, by primary key, each with its integer-valued fields.
    [lookup_error] is what [objects.get(id=i)] raises for an id without
    row: [DoesNotExist] when the database was asked and had none, or the
    error of the conversion or of the database backend for an id that it
    does not take ([OverflowError] beyond 64 bits on SQLite). *)
Record Model := mkModel {
  m_name : string;
  m_mro : list string;
  app_label : string;
  model_name : string;
  object_name : string;
  verbose_name : string;
  objects : gmap Z (gmap string Z);
  lookup_error : Z -> ExnClass
}.

Record HttpRequest := mkRequest {
  user : string;
  method : string;
  GET : gmap string string;
  POST : gmap string string;
  QUERY_STRING : string   (* request.META['QUERY_STRING'] *)
}.

(** A view wrapped by [admin_site.admin_view]: a bound method of an admin. *)
Inductive Callback :=
| AdminView (owner : string) (view : string).

Record URLPattern := url {
  regex : string;
  callback : Callback;
  name : option string
}.

(** A bound or unbound choice form with the single field [type]. *)
Record ChoiceForm := mkForm {
  type_label : string;
  data : option (gmap string string);
  initial : Z;
  choices : list (Z * string)
}.

(** [forms.ChoiceField] validation: the form is bound, the field is
    present, and its text is the text of one of the choice keys. *)
Definition is_valid (f : ChoiceForm) : bool :=
  match data f with
  | None => false
  | Some d =>
      match d !! "type" with
      | None => false
      | Some v => existsb (fun c => String.eqb v (Py.str c.1)) (choices f)
      end
  end.

(** [form.cleaned_data['type']] of a valid form: the submitted text. *)
Definition cleaned_type (f : ChoiceForm) : string :=
  default "" (data f ≫= fun d => d !! "type").

(** The fields with errors, as [AdminErrorList] collects them. *)
Definition errors_of (f : ChoiceForm) : list string :=
  match data f with
  | None => []
  | Some _ => if is_valid f then [] else ["type"]
  end.

(** The template context: a dict of the values that [add_type_view] and
    [render_add_type_form] put in it. *)
Inductive ContextValue :=
| CText (s : string)
| CBool (b : bool)
| CForm (f : ChoiceForm)
| CErrors (fields : list string)
| COpts (m : Model).

Abbreviation Context := (gmap string ContextValue).

Inductive HttpResponse :=
| HttpResponseRedirect (location : string)
| render_to_response (templates : list string) (context : Context) (current_app : string)
| Response (body : string).   (* a response built by a child admin *)

Definition ExtraContext := option (list (string * Value)).

(** An admin instance held in a site registry.  Its views are code of the
    child admin class; they return a response or raise. *)
Record ModelAdmin := mkAdmin {
  admin_id : string;
  add_view : HttpRequest -> string -> ExtraContext -> Result ExnClass HttpResponse;
  change_view : HttpRequest -> Z -> CallArgs -> Result ExnClass HttpResponse;
  changeform_view : HttpRequest -> Z -> CallArgs -> Result ExnClass HttpResponse;
  get_urls : Result ExnClass (list URLPattern)
}.

(** An admin class: whether it derives from [admin.ModelAdmin], and the
    instance that [admin_class(model, site)] builds. *)
Record AdminClass := mkAdminClass {
  ac_name : string;
  ac_is_model_admin : bool;
  ac_new : Model -> ModelAdmin
}.

Record AdminSite := mkSite {
  site_name : string;
  _registry : gmap string ModelAdmin   (* keyed by the model class *)
}.

Record ResolverMatch := mkMatch {
  func : HttpRequest -> CallArgs -> Result ExnClass HttpResponse;
  match_args : CallArgs
}.

(** What the module takes from the Python runtime and from Django. *)
Record Framework := mkFramework {
  VERSION : nat * nat;                        (* django.VERSION[:2] *)
  int_str : string -> option Z;               (* int(text); None is ValueError *)
  long_str : string -> option Z;              (* long(text); None is ValueError *)
  has_add_permission : HttpRequest -> bool;
  has_change_permission : HttpRequest -> bool;
  save_on_top : bool;
  self_media : string;
  form_media : string;
  register :
    gmap string ModelAdmin -> Model -> AdminClass ->
    Result ExnClass (gmap string ModelAdmin);  (* AdminSite.register *)
  add_preserved_filters : string -> Model -> string -> string;
  super_get_urls : Result ExnClass (list URLPattern);
  super_changeform_view :
    HttpRequest -> option Z -> CallArgs -> Result ExnClass HttpResponse;
  resolve :
    list URLPattern -> string -> Result ExnClass (option ResolverMatch)
}.

(** [AdminSite.register] for one model, as Django has it: an abstract model
    and a model already registered are refused, a swapped model is skipped;
    here no model is abstract or swapped. *)
Definition default_register (reg : gmap string ModelAdmin) (m : Model)
    (cls : AdminClass) : Result ExnClass (gmap string ModelAdmin) :=
  match reg !! m_name m with
  | Some _ => Raise (Other "AlreadyRegistered")
  | None => Ok (<[m_name m := ac_new cls m]> reg)
  end.

(** Tuple comparison of [django.VERSION] with a pair. *)
Definition version_lt (v w : nat * nat) : bool :=
  ((v.1 <? w.1) || ((v.1 =? w.1) && (v.2 <? w.2)))%nat.
Definition version_ge (v w : nat * nat) : bool := negb (version_lt v w).

End Django.
Export Django.

(** ** ProxyChoiceForm *)

(** The default [add_type_form]: a [ChoiceField] named [type] whose label
    is the class attribute [type_label]. *)
Definition ProxyChoiceForm (data : option (gmap string string)) (initial : Z)
    : ChoiceForm :=
  {| type_label := "Type"; data := data; initial := initial; choices := [] |}.

(** [form.fields['type'].choices = choices] *)
Definition set_choices (f : ChoiceForm) (cs : list (Z * string)) : ChoiceForm :=
  {| type_label := type_label f; data := data f; initial := initial f;
     choices := cs |}.

(** ** ParentModelAdmin *)

Module ParentModelAdmin.

(** The instance: the three class attributes that a subclass has to define
    ([None] while it has not), the template override, and the attributes
    that [__init__] and [_lazy_setup] set.  [_child_models] does not exist
    before [_lazy_setup] has assigned it. *)
Record Self := mkSelf {
  base_model : option Model;
  child_models : option (list (Z * (Model * AdminClass)));
  type_field_name : option string;
  add_type_template : option string;
  model : Model;
  admin_site : AdminSite;
  _child_admin_site : AdminSite;
  _is_setup : bool;
  _child_models : option (gmap Z (Model * AdminClass))
}.

(** What a call does that is not in its result: the child-admin code it
    enters, the form it builds, the template it renders. *)
Inductive Event :=
| CalledChild (admin : string) (view : string)
| CalledResolved (admin : string) (path : string)
| FormBuilt
| Rendered (templates : list string).

Record World := mkWorld {
  this : Self;
  trace : list Event
}.

(** Methods are state transformers that return or raise; an exception
    leaves the assignments made before it in place. *)
Definition M (A : Type) : Type := World -> Result Exn A * World.

Definition ret {A} (a : A) : M A := fun w => (Ok a, w).
Definition bind {A B} (m : M A) (f : A -> M B) : M B :=
  fun w =>
    match m w with
    | (Ok a, w') => f a w'
    | (Raise e, w') => (Raise e, w')
    end.

Declare Scope py_scope.
Delimit Scope py_scope with py.
Notation "'let*' x := m 'in' k" := (bind m (fun x => k))
  (at level 10, x name, m at level 100, k at level 200) : py_scope.
Notation "m ;; k" := (bind m (fun _ => k))
  (at level 100, k at level 200, right associativity) : py_scope.
Local Open Scope py_scope.

Definition raise {A} (c : ExnClass) : M A :=
  fun w => (Raise (mkExn c ByModule), w).
Definition fail_builtin {A} (c : ExnClass) : M A :=
  fun w => (Raise (mkExn c ByBuiltin), w).

(** A call into framework or child-admin code: what it returns is
    returned, what it raises propagates. *)
Definition from_callee {A} (r : Result ExnClass A) : Result Exn A :=
  match r with
  | Ok a => Ok a
  | Raise c => Raise (mkExn c ByCallee)
  end.
Definition callee {A} (r : Result ExnClass A) : M A :=
  fun w => (from_callee r, w).

(** [try: body  except c: handler] *)
Definition try_except {A} (body : M A) (c : ExnClass) (handler : M A) : M A :=
  fun w =>
    match body w with
    | (Ok a, w') => (Ok a, w')
    | (Raise e, w') =>
        if decide (exn_class e = c) then handler w' else (Raise e, w')
    end.

Definition attr {A} (f : Self -> A) : M A := fun w => (Ok (f (this w)), w).
Definition assign (f : Self -> Self) : M unit :=
  fun w => (Ok tt, {| this := f (this w); trace := trace w |}).
Definition emit (e : Event) : M unit :=
  fun w => (Ok tt, {| this := this w; trace := trace w ++ [e] |}).

Fixpoint for_each {A} (l : list A) (body : A -> M unit) : M unit :=
  match l with
  | [] => ret tt
  | x :: l' => body x;; for_each l' body
  end.

(** [d[k]] on a dict *)
Definition subscript `{Countable K} {V} (d : gmap K V) (k : K) : M V :=
  match d !! k with
  | Some v => ret v
  | None => fail_builtin KeyError
  end.

(** [l[0]] on a list *)
Definition first {A} (l : list A) : M A :=
  match l with
  | x :: _ => ret x
  | [] => fail_builtin IndexError
  end.

(** [issubclass(cls, base)] on model classes; a [base] that is [None] is
    not a class. *)
Definition issubclass (m : Model) (base : option Model) : M bool :=
  match base with
  | Some b => ret (bool_decide (m_name b ∈ m_mro m))
  | None => fail_builtin TypeError
  end.

(** [getattr(obj, name)] *)
Definition getattr (obj : gmap string Z) (name : option string) : M Z :=
  match name with
  | None => fail_builtin TypeError
  | Some n =>
      match obj !! n with
      | Some v => ret v
      | None => fail_builtin AttributeError
      end
  end.

(** [base_model.objects.get(id=object_id)]: the row, or what the manager
    raises when there is none. *)
Definition objects_get (base : option Model) (object_id : Z)
    : M (gmap string Z) :=
  match base with
  | None => fail_builtin AttributeError
  | Some b =>
      match objects b !! object_id with
      | Some obj => ret obj
      | None => callee (Raise (lookup_error b object_id))
      end
  end.

(** [int(v)] and [long(v)] *)
Definition int (fw : Framework) (v : Value) : M Z :=
  match v with
  | VInt z => ret z
  | VStr s =>
      match int_str fw s with
      | Some z => ret z
      | None => fail_builtin ValueError
      end
  | VNone => fail_builtin TypeError
  end.
Definition long (fw : Framework) (s : string) : M Z :=
  match long_str fw s with
  | Some z => ret z
  | None => fail_builtin ValueError
  end.

(** [querydict.get(key, default)] *)
Definition QueryDict_get (d : gmap string string) (key : string)
    (default : Value) : Value :=
  match d !! key with
  | Some s => VStr s
  | None => default
  end.

(** [urlencode({'type': type_value})] *)
Definition urlencode_type (type_value : Z) : string :=
  "type=" ++ Py.str type_value.

Definition set_is_setup (b : bool) (s : Self) : Self :=
  {| base_model := base_model s; child_models := child_models s;
     type_field_name := type_field_name s;
     add_type_template := add_type_template s; model := model s;
     admin_site := admin_site s; _child_admin_site := _child_admin_site s;
     _is_setup := b; _child_models := _child_models s |}.
Definition set_child_models (d : gmap Z (Model * AdminClass)) (s : Self) : Self :=
  {| base_model := base_model s; child_models := child_models s;
     type_field_name := type_field_name s;
     add_type_template := add_type_template s; model := model s;
     admin_site := admin_site s; _child_admin_site := _child_admin_site s;
     _is_setup := _is_setup s; _child_models := Some d |}.
Definition set_child_registry (r : gmap string ModelAdmin) (s : Self) : Self :=
  {| base_model := base_model s; child_models := child_models s;
     type_field_name := type_field_name s;
     add_type_template := add_type_template s; model := model s;
     admin_site := admin_site s;
     _child_admin_site :=
       {| site_name := site_name (_child_admin_site s); _registry := r |};
     _is_setup := _is_setup s; _child_models := _child_models s |}.


Section methods.

Context (fw : Framework).

(** [__init__]: the child admin site is a new, empty site of the same name. *)
Definition __init__ (base_model : option Model)
    (child_models : option (list (Z * (Model * AdminClass))))
    (type_field_name add_type_template : option string)
    (model : Model) (admin_site : AdminSite) : Self :=
  {| base_model := base_model; child_models := child_models;
     type_field_name := type_field_name;
     add_type_template := add_type_template;
     model := model; admin_site := admin_site;
     _child_admin_site :=
       {| site_name := site_name admin_site; _registry := ∅ |};
     _is_setup := false; _child_models := None |}.

Definition get_child_models : M (list (Z * (Model * AdminClass))) :=
  let* cm := attr child_models in
  match cm with
  | None => raise NotImplementedError
  | Some l => ret l
  end.

Definition register_child (model : Model) (model_admin : AdminClass) : M unit :=
  let* is_setup := attr _is_setup in
  if is_setup then raise RuntimeError
  else
    let* base := attr base_model in
    let* sub := issubclass model base in
    if negb sub then raise TypeError
    else if negb (ac_is_model_admin model_admin) then raise TypeError
    else
      let* site := attr _child_admin_site in
      let* reg := callee (register fw (_registry site) model model_admin) in
      assign (set_child_registry reg).

Definition _lazy_setup : M unit :=
  let* is_setup := attr _is_setup in
  if is_setup then ret tt
  else
    let* child_models := get_child_models in
    for_each child_models (fun kv => register_child kv.2.1 kv.2.2);;
    assign (set_child_models (Py.dict child_models));;
    let* site := attr admin_site in
    let* child_site := attr _child_admin_site in
    (* copy(), then update(): an entry of the child site wins *)
    let complete_registry := _registry child_site ∪ _registry site in
    assign (set_child_registry complete_registry);;
    assign (set_is_setup true).

Definition get_child_type_choices : M (list (Z * string)) :=
  let* child_models := get_child_models in
  ret (map (fun kv => (kv.1, verbose_name kv.2.1)) child_models).

(** [self._child_models]: the attribute is missing before the setup. *)
Definition attr_child_models : M (gmap Z (Model * AdminClass)) :=
  let* d := attr _child_models in
  match d with
  | Some d => ret d
  | None => fail_builtin AttributeError
  end.

Definition _get_real_admin (type_value : Z) : M ModelAdmin :=
  let* entry :=
    try_except
      (let* d := attr_child_models in subscript d type_value)
      IndexError (raise Http404) in
  let model := entry.1 in
  try_except
    (let* site := attr _child_admin_site in subscript (_registry site) (m_name model))
    KeyError (raise RuntimeError).

Definition _get_type_by_object_id (object_id : Z) : M Z :=
  let* obj :=
    try_except
      (let* base := attr base_model in objects_get base object_id)
      DoesNotExist (raise Http404) in
  try_except
    (let* name := attr type_field_name in getattr obj name)
    AttributeError (raise NotImplementedError).

Definition render_add_type_form (request : HttpRequest) (context : Context)
    (form_url : string) : M HttpResponse :=
  let* opts := attr model in
  let app_label := app_label opts in
  let context : Context :=
    list_to_map
      [("has_change_permission", CBool (has_change_permission fw request));
       ("form_url", CText form_url);
       ("opts", COpts opts);
       ("add", CBool true);
       ("save_on_top", CBool (save_on_top fw))] ∪ context in
  let* site := attr admin_site in
  let* template := attr add_type_template in
  let templates :=
    match template with
    | Some t =>
        if String.eqb t "" then
          ["admin/" ++ app_label ++ "/" ++ Py.lower (object_name opts)
             ++ "/add_type_form.html";
           "admin/" ++ app_label ++ "/add_type_form.html";
           "admin/add_type_form.html"]
        else [t]
    | None =>
        ["admin/" ++ app_label ++ "/" ++ Py.lower (object_name opts)
           ++ "/add_type_form.html";
         "admin/" ++ app_label ++ "/add_type_form.html";
         "admin/add_type_form.html"]
    end in
  emit (Rendered templates);;
  ret (render_to_response templates context (site_name site)).

Definition add_type_view (request : HttpRequest) (form_url : string)
    : M HttpResponse :=
  if negb (has_add_permission fw request) then raise PermissionDenied
  else
    let extra_qs :=
      if String.eqb (QUERY_STRING request) "" then ""
      else "&" ++ QUERY_STRING request in
    let* choices := get_child_type_choices in
    if (length choices =? 1)%nat then
      let* c := first choices in
      ret (HttpResponseRedirect ("?type=" ++ Py.str c.1 ++ extra_qs))
    else
      let data :=
        if String.eqb (method request) "POST" then Some (POST request)
        else None in
      let* c := first choices in
      emit FormBuilt;;
      let form := set_choices (ProxyChoiceForm data c.1) choices in
      if is_valid form then
        ret (HttpResponseRedirect ("?type=" ++ cleaned_type form ++ extra_qs))
      else
        let* opts := attr model in
        let context : Context :=
          list_to_map
            [("title", CText ("Add " ++ verbose_name opts));
             ("adminform", CForm form);
             ("is_popup",
               CBool (bool_decide (is_Some (POST request !! "_popup"))
                      || bool_decide (is_Some (GET request !! "_popup"))));
             ("media", CText (self_media fw ++ form_media fw));
             ("errors", CErrors (errors_of form));
             ("app_label", CText (app_label opts))] in
        render_add_type_form request context form_url.

Definition add_view (request : HttpRequest) (form_url : string)
    (extra_context : ExtraContext) : M HttpResponse :=
  let* type_value := int fw (QueryDict_get (GET request) "type" (VInt 0)) in
  if (type_value =? 0)%Z then add_type_view request ""
  else
    let* real_admin := _get_real_admin type_value in
    let* opts := attr model in
    let form_url :=
      add_preserved_filters fw (urlencode_type type_value) opts form_url in
    emit (CalledChild (admin_id real_admin) "add_view");;
    callee (Django.add_view real_admin request form_url extra_context).

Definition change_view (request : HttpRequest) (object_id : Z)
    (rest : CallArgs) : M HttpResponse :=
  let* type_value := _get_type_by_object_id object_id in
  let* real_admin := _get_real_admin type_value in
  emit (CalledChild (admin_id real_admin) "change_view");;
  callee (Django.change_view real_admin request object_id rest).

(** Defined by the class only for Django 1.7 and later; before that the
    attribute is the inherited one.  [object_id] is falsy when it is
    [None] or zero. *)
Definition changeform_view (request : HttpRequest) (object_id : option Z)
    (rest : CallArgs) : M HttpResponse :=
  if version_ge (VERSION fw) (1, 7)%nat then
    match object_id with
    | Some id =>
        if (id =? 0)%Z then
          callee (super_changeform_view fw request object_id rest)
        else
          let* type_value := _get_type_by_object_id id in
          let* real_admin := _get_real_admin type_value in
          emit (CalledChild (admin_id real_admin) "changeform_view");;
          callee (Django.changeform_view real_admin request id rest)
    | None => callee (super_changeform_view fw request object_id rest)
    end
  else callee (super_changeform_view fw request object_id rest).

(** [pat.name] as a condition: [None] and the empty string are falsy. *)
Definition has_name (pat : URLPattern) : bool :=
  match name pat with
  | Some n => negb (String.eqb n "")
  | None => false
  end.

(** The loop of [get_urls] over the child models. *)
Fixpoint collect_dummy_urls (l : list (Z * (Model * AdminClass)))
    (dummy_urls : list URLPattern) : M (list URLPattern) :=
  match l with
  | [] => ret dummy_urls
  | kv :: l' =>
      let* admin := _get_real_admin kv.1 in
      emit (CalledChild (admin_id admin) "get_urls");;
      let* more := callee (Django.get_urls admin) in
      collect_dummy_urls l' (dummy_urls ++ more)%list
  end.

Definition get_urls : M (list URLPattern) :=
  let* urls := callee (super_get_urls fw) in
  let* opts := attr model in
  let info := (app_label opts, model_name opts) in
  let split :=
    if version_lt (VERSION fw) (1, 9)%nat then
      let new_change_url :=
        url "^(\d+|__fk__)/$" (AdminView "self" "change_view")
          (Some (info.1 ++ "_" ++ info.2 ++ "_change")) in
      (map (fun oldurl =>
              if bool_decide (name oldurl = name new_change_url)
              then new_change_url else oldurl) urls,
       [])
    else (filter (fun pat => has_name pat = true) urls,
          filter (fun pat => has_name pat = false) urls) in
  let urls := split.1 in
  let redirect_urls := split.2 in
  let custom_urls := [url "^(?P<path>.+)$" (AdminView "self" "subclass_view") None] in
  _lazy_setup;;
  let* child_models := get_child_models in
  let* dummy_urls := collect_dummy_urls child_models [] in
  ret (urls ++ custom_urls ++ dummy_urls ++ redirect_urls)%list.

Definition subclass_view (request : HttpRequest) (path : string)
    : M HttpResponse :=
  let* type := int fw (QueryDict_get (GET request) "type" (VInt 0)) in
  let* type :=
    if (type =? 0)%Z then
      let* object_id :=
        try_except
          (let pos := Py.find path "/" in
           if (pos =? -1)%Z then long fw path
           else long fw (Py.slice_to path pos))
          ValueError (raise Http404) in
      _get_type_by_object_id object_id
    else ret type in
  let* real_admin := _get_real_admin type in
  (* real_admin.urls is the property that calls real_admin.get_urls() *)
  emit (CalledChild (admin_id real_admin) "urls");;
  let* urls := callee (Django.get_urls real_admin) in
  let* resolvermatch := callee (resolve fw urls path) in
  match resolvermatch with
  | None => raise Http404
  | Some rm =>
      emit (CalledResolved (admin_id real_admin) path);;
      callee (func rm request (match_args rm))
  end.

(** The part of [path] that [subclass_view] converts to an object id:
    all of it, or what stands before the first slash. *)
Definition first_segment (path : string) : string :=
  let pos := Py.find path "/" in
  if (pos =? -1)%Z then path else Py.slice_to path pos.

(** The request has no [type] parameter, or one that [int] reads as zero:
    the condition [not type] of [add_view] and [subclass_view]. *)
Definition no_type_parameter (request : HttpRequest) : Prop :=
  match GET request !! "type" with
  | None => True
  | Some s => int_str fw s = Some 0
  end.

(** The calls that the class offers, with their arguments. *)
Inductive Call :=
| call_get_child_models
| call_register_child (model : Model) (model_admin : AdminClass)
| call__lazy_setup
| call_get_child_type_choices
| call__get_real_admin (type_value : Z)
| call_add_view (request : HttpRequest) (form_url : string)
    (extra_context : ExtraContext)
| call__get_type_by_object_id (object_id : Z)
| call_change_view (request : HttpRequest) (object_id : Z) (rest : CallArgs)
| call_changeform_view (request : HttpRequest) (object_id : option Z)
    (rest : CallArgs)
| call_get_urls
| call_subclass_view (request : HttpRequest) (path : string)
| call_add_type_view (request : HttpRequest) (form_url : string)
| call_render_add_type_form (request : HttpRequest) (context : Context)
    (form_url : string).

(** Running a call for what it raises and what it leaves behind. *)
Definition outcome {A} (m : M A) (w : World) : option Exn * World :=
  match m w with
  | (Ok _, w') => (None, w')
  | (Raise e, w') => (Some e, w')
  end.

Definition run (c : Call) (w : World) : option Exn * World :=
  match c with
  | call_get_child_models => outcome get_child_models w
  | call_register_child m a => outcome (register_child m a) w
  | call__lazy_setup => outcome _lazy_setup w
  | call_get_child_type_choices => outcome get_child_type_choices w
  | call__get_real_admin t => outcome (_get_real_admin t) w
  | call_add_view r f e => outcome (add_view r f e) w
  | call__get_type_by_object_id i => outcome (_get_type_by_object_id i) w
  | call_change_view r i a => outcome (change_view r i a) w
  | call_changeform_view r i a => outcome (changeform_view r i a) w
  | call_get_urls => outcome get_urls w
  | call_subclass_view r p => outcome (subclass_view r p) w
  | call_add_type_view r f => outcome (add_type_view r f) w
  | call_render_add_type_form r c f => outcome (render_add_type_form r c f) w
  end.

End methods.

End ParentModelAdmin.

(** ** A small installation: pages that are articles or galleries *)

Module Sample.

Import ParentModelAdmin.

Definition rows : gmap Z (gmap string Z) :=
  list_to_map
    [(1, {["kind" := 1]}); (2, {["kind" := 2]}); (3, {["kind" := 7]});
     (4, {["title" := 0]})].

(** The database is SQLite: an id outside the 64-bit integers is refused
    with [OverflowError], every other id without row is not found. *)
Definition sqlite_lookup_error (id : Z) : ExnClass :=
  if (id <? - 2 ^ 63)%Z || (2 ^ 63 <=? id)%Z then Other "OverflowError"
  else DoesNotExist.

Definition Page : Model :=
  mkModel "pages.Page" ["pages.Page"] "pages" "page" "Page" "page" rows
    sqlite_lookup_error.
Definition Article : Model :=
  mkModel "pages.Article" ["pages.Article"; "pages.Page"]
    "pages" "article" "Article" "article" rows sqlite_lookup_error.
Definition Gallery : Model :=
  mkModel "pages.Gallery" ["pages.Gallery"; "pages.Page"]
    "pages" "gallery" "Gallery" "gallery" rows sqlite_lookup_error.
Definition Comment : Model :=
  mkModel "talk.Comment" ["talk.Comment"] "talk" "comment" "Comment" "comment" ∅
    sqlite_lookup_error.

(** A child admin whose views answer with their own name and arguments. *)
Definition child (id : string) (m : Model) : ModelAdmin :=
  {| admin_id := id;
     Django.add_view := fun _ form_url _ =>
       Ok (Response (id ++ ".add_view " ++ form_url));
     Django.change_view := fun _ object_id _ =>
       Ok (Response (id ++ ".change_view " ++ Py.str object_id));
     Django.changeform_view := fun _ object_id _ =>
       Ok (Response (id ++ ".changeform_view " ++ Py.str object_id));
     Django.get_urls :=
       Ok [url "^(.+)/history/$" (AdminView id "history_view")
             (Some (app_label m ++ "_" ++ model_name m ++ "_history"))] |}.

Definition ArticleAdmin : AdminClass :=
  mkAdminClass "ArticleAdmin" true (child "ArticleAdmin").
Definition GalleryAdmin : AdminClass :=
  mkAdminClass "GalleryAdmin" true (child "GalleryAdmin").

(** Staff may add and change; the resolver knows the history page. *)
Definition fw : Framework :=
  {| VERSION := (1, 8)%nat;
     int_str := Py.decimal_literal;
     long_str := Py.decimal_literal;
     has_add_permission := fun r => String.eqb (user r) "staff";
     has_change_permission := fun r => String.eqb (user r) "staff";
     save_on_top := false;
     self_media := "";
     form_media := "";
     register := default_register;
     add_preserved_filters := fun preserved _ form_url =>
       form_url ++ "?_changelist_filters=" ++ preserved;
     super_get_urls :=
       Ok [url "^$" (AdminView "self" "changelist_view") (Some "pages_page_changelist");
           url "^add/$" (AdminView "self" "add_view") (Some "pages_page_add");
           url "^(.+)/$" (AdminView "self" "change_view") (Some "pages_page_change")];
     super_changeform_view := fun _ _ _ => Ok (Response "ModelAdmin.changeform_view");
     resolve := fun urls path =>
       match urls with
       | [] => Raise (Other "Resolver404")
       | pat :: _ =>
           if String.eqb path "1/history/" then
             Ok (Some (mkMatch
                         (fun _ a => Ok (Response "history of 1"))
                         (mkArgs [VStr "1"] [])))
           else Raise (Other "Resolver404")
       end |}.

Definition site : AdminSite := mkSite "admin" ∅.

(** The admin as [__init__] leaves it ... *)
Definition fresh : Self :=
  __init__ (Some Page) (Some [(1, (Article, ArticleAdmin)); (2, (Gallery, GalleryAdmin))])
    (Some "kind") None Page site.

(** ... and after [get_urls] has run the lazy setup. *)
Definition ready : World :=
  mkWorld (this (run fw call_get_urls (mkWorld fresh [])).2) [].

(** A site that skips every registration, as Django does for a swapped
    model: the setup completes and no child admin is registered. *)
Definition fw_skipping : Framework :=
  {| VERSION := VERSION fw; int_str := int_str fw; long_str := long_str fw;
     has_add_permission := has_add_permission fw;
     has_change_permission := has_change_permission fw;
     save_on_top := save_on_top fw; self_media := self_media fw;
     form_media := form_media fw;
     register := fun reg _ _ => Ok reg;
     add_preserved_filters := add_preserved_filters fw;
     super_get_urls := super_get_urls fw;
     super_changeform_view := super_changeform_view fw;
     resolve := resolve fw |}.
Definition unregistered : World :=
  mkWorld (this (run fw_skipping call__lazy_setup (mkWorld fresh [])).2) [].

(** An admin with nothing configured, and one with a single child. *)
Definition bare : Self := __init__ None None None None Page site.
Definition single : Self :=
  __init__ (Some Page) (Some [(1, (Article, ArticleAdmin))]) (Some "kind")
    None Page site.

Definition get (u : string) (query : list (string * string)) (qs : string)
    : HttpRequest :=
  mkRequest u "GET" (list_to_map query) ∅ qs.

End Sample.

(** ** What a method keeps and what it raises *)

(** The exception classes that the error-handling section of the
    specification names, and the classes of all [raise] statements of the
    module.  An exception is one of a list of classes when it is an
    instance of one of them, [instance_of_any]: a [NotImplementedError] is
    a [RuntimeError]. *)
Definition framework_exceptions : list ExnClass :=
  [Http404; PermissionDenied; RuntimeError].
Definition module_exceptions : list ExnClass :=
  [Http404; PermissionDenied; RuntimeError; NotImplementedError; TypeError].

(** The framework exceptions and [TypeError]. *)
Definition raised_exceptions : list ExnClass :=
  [Http404; PermissionDenied; RuntimeError; TypeError].

(** A method respects an invariant [I] of the admin and a condition [E] on
    exceptions: started where [I] holds it ends, by return or by an
    exception, where [I] holds, and what it raises satisfies [E]. *)
Definition respects (I : ParentModelAdmin.Self -> Prop) (E : Exn -> Prop)
    {A} (m : ParentModelAdmin.M A) : Prop :=
  forall w : ParentModelAdmin.World,
    I (ParentModelAdmin.this w) ->
    I (ParentModelAdmin.this (m w).2)
    /\ forall e : Exn, (m w).1 = Raise e -> E e.

(** ** Further notions for the properties of the methods *)

(** What [AdminSite.register] has to do when it returns for the setup to
    be of use: the model is registered afterwards, and what was registered
    stays registered.  Django's does; see [default_register]. *)
Definition register_keeps (fw : Framework) : Prop :=
  forall (reg reg' : gmap string ModelAdmin) (m : Model) (cls : AdminClass),
    register fw reg m cls = Ok reg' ->
    is_Some (reg' !! m_name m)
    /\ forall k, is_Some (reg !! k) -> is_Some (reg' !! k).

(** A method only appends events to the trace, each of them in [P]. *)
Definition emits_only (P : ParentModelAdmin.Event -> Prop) {A}
    (m : ParentModelAdmin.M A) : Prop :=
  forall w : ParentModelAdmin.World,
    exists evs,
      ParentModelAdmin.trace (m w).2 = (ParentModelAdmin.trace w ++ evs)%list
      /\ Forall P evs.

(** The events that are entries into child-admin code. *)
Definition enters_child (ev : ParentModelAdmin.Event) : Prop :=
  match ev with
  | ParentModelAdmin.CalledChild _ _ => True
  | ParentModelAdmin.CalledResolved _ _ => True
  | _ => False
  end.

(** The calls that are views or lookups; the others are [register_child],
    [_lazy_setup] and [get_urls], which set the admin up. *)
Definition is_reader (c : ParentModelAdmin.Call) : bool :=
  match c with
  | ParentModelAdmin.call_register_child _ _ => false
  | ParentModelAdmin.call__lazy_setup => false
  | ParentModelAdmin.call_get_urls => false
  | _ => true
  end.

(** [seg] is the segment of [path] before its first slash: it has no
    slash, and [path] is [seg] alone or [seg], a slash and a rest. *)
Definition no_slash (s : string) : Prop :=
  ~ In "/"%char (list_ascii_of_string s).
Definition is_first_segment (seg path : string) : Prop :=
  no_slash seg
  /\ (path = seg \/ exists rest : string, path = seg ++ String "/" rest).

(** The suffix that [add_type_view] appends to its redirects. *)
Definition extra_qs (request : HttpRequest) : string :=
  if String.eqb (QUERY_STRING request) "" then ""
  else "&" ++ QUERY_STRING request.

(** The templates that [render_add_type_form] tries when the admin has no
    [add_type_template]. *)
Definition default_templates (opts : Model) : list string :=
  ["admin/" ++ app_label opts ++ "/" ++ Py.lower (object_name opts)
     ++ "/add_type_form.html";
   "admin/" ++ app_label opts ++ "/add_type_form.html";
   "admin/add_type_form.html"].

(** The two patterns that [get_urls] makes. *)
Definition subclass_url : URLPattern :=
  url "^(?P<path>.+)$" (AdminView "self" "subclass_view") None.
Definition new_change_url (opts : Model) : URLPattern :=
  url "^(\d+|__fk__)/$" (AdminView "self" "change_view")
    (Some (app_label opts ++ "_" ++ model_name opts ++ "_change")).

(** ** Properties *)

Import ParentModelAdmin.
Local Open Scope py_scope.

(** Unfolding the monad in a goal. *)
Ltac unfold_monad :=
  cbv beta iota delta
    [bind ret raise fail_builtin callee try_except attr assign emit
     subscript first getattr objects_get issubclass int long QueryDict_get
     attr_child_models] in *.

Section dispatch.

Variables (w : World) (d : gmap Z (Model * AdminClass)).
Hypothesis Hsetup : _child_models (this w) = Some d.

(** The two lookups of [_get_real_admin] both succeed. *)
Lemma _get_real_admin_found (t : Z) (m : Model) (cls : AdminClass)
    (real_admin : ModelAdmin) :
  d !! t = Some (m, cls) ->
  _registry (_child_admin_site (this w)) !! m_name m = Some real_admin ->
  _get_real_admin t w = (Ok real_admin, w).
Proof.
  intros Hd Hreg. unfold _get_real_admin. unfold_monad.
  rewrite Hsetup, Hd. simpl. now rewrite Hreg.
Qed.

(** The first lookup fails: the [KeyError] of the dict passes the handler
    for [IndexError]. *)
Lemma _get_real_admin_unknown (t : Z) :
  d !! t = None ->
  _get_real_admin t w = (Raise (mkExn KeyError ByBuiltin), w).
Proof.
  intros Hd. unfold _get_real_admin. unfold_monad.
  now rewrite Hsetup, Hd.
Qed.

(** The second lookup fails. *)
Lemma _get_real_admin_unregistered (t : Z) (m : Model) (cls : AdminClass) :
  d !! t = Some (m, cls) ->
  _registry (_child_admin_site (this w)) !! m_name m = None ->
  _get_real_admin t w = (Raise (mkExn RuntimeError ByModule), w).
Proof.
  intros Hd Hreg. unfold _get_real_admin. unfold_monad.
  rewrite Hsetup, Hd. simpl. now rewrite Hreg.
Qed.

End dispatch.

Section type_lookup.

Variables (w : World) (base : Model).
Hypothesis Hbase : base_model (this w) = Some base.

Lemma _get_type_by_object_id_found (object_id : Z) (obj : gmap string Z)
    (field : string) (t : Z) :
  objects base !! object_id = Some obj ->
  type_field_name (this w) = Some field ->
  obj !! field = Some t ->
  _get_type_by_object_id object_id w = (Ok t, w).
Proof.
  intros Hobj Hname Hfield. unfold _get_type_by_object_id. unfold_monad.
  rewrite Hbase, Hobj. simpl. now rewrite Hname, Hfield.
Qed.

Lemma _get_type_by_object_id_missing (object_id : Z) :
  objects base !! object_id = None ->
  lookup_error base object_id = DoesNotExist ->
  _get_type_by_object_id object_id w = (Raise (mkExn Http404 ByModule), w).
Proof.
  intros Hobj Herr. unfold _get_type_by_object_id. unfold_monad.
  now rewrite Hbase, Hobj, Herr.
Qed.

(** What the manager raises other than [DoesNotExist] passes the handler. *)
Lemma _get_type_by_object_id_refused (object_id : Z) :
  objects base !! object_id = None ->
  lookup_error base object_id <> DoesNotExist ->
  _get_type_by_object_id object_id w
  = (Raise (mkExn (lookup_error base object_id) ByCallee), w).
Proof.
  intros Hobj Herr. unfold _get_type_by_object_id. unfold_monad.
  rewrite Hbase, Hobj. cbn.
  destruct (decide (lookup_error base object_id = DoesNotExist));
    [contradiction | reflexivity].
Qed.

End type_lookup.

(** The type parameter of a request without one reads as zero. *)
Lemma int_no_type_parameter (fw : Framework) (request : HttpRequest) (w : World) :
  no_type_parameter fw request ->
  int fw (QueryDict_get (GET request) "type" (VInt 0)) w = (Ok 0, w).
Proof.
  unfold no_type_parameter. unfold_monad.
  destruct (GET request !! "type") as [s|]; [|reflexivity].
  now intros ->.
Qed.

(** The object id that [subclass_view] reads from the path: the number
    that the first segment denotes, [Http404] when it denotes none. *)
Lemma path_object_id (fw : Framework) (path : string) (w : World) :
  try_except
    (let pos := Py.find path "/" in
     if (pos =? -1)%Z then long fw path else long fw (Py.slice_to path pos))
    ValueError (raise Http404) w =
  match long_str fw (first_segment path) with
  | Some object_id => (Ok object_id, w)
  | None => (Raise (mkExn Http404 ByModule), w)
  end.
Proof.
  unfold first_segment, try_except, long. cbv zeta.
  destruct (Py.find path "/" =? -1)%Z;
    destruct (long_str fw _); reflexivity.
Qed.

(** [find] on a text without the character, and on one that has it after
    a prefix without. *)
Lemma find_from_absent (c : ascii) (s : string) (i : Z) :
  ~ In c (list_ascii_of_string s) -> Py.find_from c s i = -1.
Proof.
  revert i. induction s as [|d s IH]; intros i Hno; simpl; [reflexivity|].
  destruct (Ascii.eqb_spec c d) as [->|_].
  - exfalso. apply Hno. now left.
  - apply IH. intros Hin. apply Hno. now right.
Qed.

Lemma find_from_prefix (c : ascii) (seg rest : string) (i : Z) :
  ~ In c (list_ascii_of_string seg) ->
  Py.find_from c (seg ++ String c rest) i = i + Z.of_nat (String.length seg).
Proof.
  revert i. induction seg as [|d seg IH]; intros i Hno; simpl.
  - rewrite Ascii.eqb_refl. lia.
  - destruct (Ascii.eqb_spec c d) as [->|_].
    + exfalso. apply Hno. now left.
    + rewrite IH by (intros Hin; apply Hno; now right). lia.
Qed.

Lemma substring_prefix (seg rest : string) :
  substring 0 (String.length seg) (seg ++ rest) = seg.
Proof.
  induction seg as [|d seg IH]; simpl.
  - now destruct rest.
  - now rewrite IH.
Qed.

(** The text that [subclass_view] converts is the segment before the first
    slash. *)
Lemma first_segment_spec (seg path : string) :
  is_first_segment seg path -> first_segment path = seg.
Proof.
  intros [Hno [->|[rest ->]]]; unfold first_segment, Py.find.
  - now rewrite find_from_absent.
  - rewrite find_from_prefix by exact Hno.
    destruct (Z.eqb_spec (0 + Z.of_nat (String.length seg)) (-1)) as [Heq|_];
      [lia|].
    unfold Py.slice_to. rewrite Z.add_0_l, Nat2Z.id.
    apply substring_prefix.
Qed.

(** C1: when the object with the given id exists, its type-discriminator
    field holds [t], and [t] selects the child admin [real_admin] (the
    child model registered for [t], and that model's admin in the child
    admin site), then [change_view] is [real_admin]'s [change_view] on the
    same request, object id and remaining arguments: it returns what that
    returns, raises what that raises, and does nothing else than enter it. *)
Theorem change_view_delegates (w : World) (request : HttpRequest)
    (object_id : Z) (rest : CallArgs) (base : Model) (obj : gmap string Z)
    (field : string) (t : Z) (d : gmap Z (Model * AdminClass)) (m : Model)
    (cls : AdminClass) (real_admin : ModelAdmin) :
  base_model (this w) = Some base ->
  objects base !! object_id = Some obj ->
  type_field_name (this w) = Some field ->
  obj !! field = Some t ->
  _child_models (this w) = Some d ->
  d !! t = Some (m, cls) ->
  _registry (_child_admin_site (this w)) !! m_name m = Some real_admin ->
  ParentModelAdmin.change_view request object_id rest w =
    (from_callee (Django.change_view real_admin request object_id rest),
     mkWorld (this w)
       (trace w ++ [CalledChild (admin_id real_admin) "change_view"])).
Proof.
  intros Hbase Hobj Hname Hfield Hsetup Hd Hreg.
  unfold ParentModelAdmin.change_view, bind at 1.
  rewrite (_get_type_by_object_id_found w base Hbase object_id obj field t)
    by assumption.
  unfold bind at 1.
  rewrite (_get_real_admin_found w d Hsetup t m cls real_admin) by assumption.
  reflexivity.
Qed.

(** Object 1 of the sample is an article: its change page is the one of the
    article admin. *)
Lemma change_view_delegates_witness :
  ParentModelAdmin.change_view (Sample.get "staff" [] "") 1 (mkArgs [] [])
    Sample.ready =
    (Ok (Response "ArticleAdmin.change_view 1"),
     mkWorld (this Sample.ready) [CalledChild "ArticleAdmin" "change_view"]).
Proof.
  apply (change_view_delegates Sample.ready (Sample.get "staff" [] "") 1
           (mkArgs [] []) Sample.Page {["kind" := 1]} "kind" 1
           (Py.dict [(1, (Sample.Article, Sample.ArticleAdmin));
                     (2, (Sample.Gallery, Sample.GalleryAdmin))])
           Sample.Article Sample.ArticleAdmin
           (Sample.child "ArticleAdmin" Sample.Article));
    reflexivity.
Defined.

(** C2: when the [type] parameter of the request reads as a nonzero
    integer [N] that is a key of the registered child models, and the child
    admin site holds an admin for the model registered under [N], then
    [add_view] is that admin's [add_view] on the same request and extra
    context, with the form URL passed through [add_preserved_filters] for
    the filter [type=N].  The only thing it does besides is to enter the
    child admin: no form is built and no template rendered. *)
Theorem add_view_delegates (fw : Framework) (w : World)
    (request : HttpRequest) (form_url : string) (extra_context : ExtraContext)
    (s : string) (N : Z) (d : gmap Z (Model * AdminClass)) (m : Model)
    (cls : AdminClass) (real_admin : ModelAdmin) :
  GET request !! "type" = Some s ->
  int_str fw s = Some N ->
  N <> 0 ->
  _child_models (this w) = Some d ->
  d !! N = Some (m, cls) ->
  _registry (_child_admin_site (this w)) !! m_name m = Some real_admin ->
  ParentModelAdmin.add_view fw request form_url extra_context w =
    (from_callee
       (Django.add_view real_admin request
          (add_preserved_filters fw ("type=" ++ Py.str N) (model (this w))
             form_url)
          extra_context),
     mkWorld (this w)
       (trace w ++ [CalledChild (admin_id real_admin) "add_view"])).
Proof.
  intros Hget Hint Hnz Hsetup Hd Hreg.
  unfold ParentModelAdmin.add_view, bind at 1.
  unfold int, QueryDict_get. rewrite Hget, Hint. unfold ret at 1.
  destruct (Z.eqb_spec N 0) as [|_]; [contradiction|].
  unfold bind at 1.
  rewrite (_get_real_admin_found w d Hsetup N m cls real_admin) by assumption.
  reflexivity.
Qed.

Lemma add_view_delegates_witness :
  ParentModelAdmin.add_view Sample.fw
    (Sample.get "staff" [("type", "2")] "type=2") "" None Sample.ready =
    (Ok (Response "GalleryAdmin.add_view ?_changelist_filters=type=2"),
     mkWorld (this Sample.ready) [CalledChild "GalleryAdmin" "add_view"]).
Proof.
  apply (add_view_delegates Sample.fw Sample.ready
           (Sample.get "staff" [("type", "2")] "type=2") "" None "2" 2
           (Py.dict [(1, (Sample.Article, Sample.ArticleAdmin));
                     (2, (Sample.Gallery, Sample.GalleryAdmin))])
           Sample.Gallery Sample.GalleryAdmin
           (Sample.child "GalleryAdmin" Sample.Gallery));
    solve [reflexivity | discriminate].
Defined.

(** C3, at a failing input: the sample registers the types 1 and 2.  For
    the type 5 the dispatch raises the [KeyError] of the dict lookup, not
    [Http404]; so do [add_view] for [?type=5], and [change_view] and
    [subclass_view] for object 3, whose type field holds 7. *)
Theorem unknown_type_raises_KeyError :
  (_get_real_admin 5 Sample.ready).1 = Raise (mkExn KeyError ByBuiltin)
  /\ (ParentModelAdmin.add_view Sample.fw
        (Sample.get "staff" [("type", "5")] "type=5") "" None Sample.ready).1
     = Raise (mkExn KeyError ByBuiltin)
  /\ (ParentModelAdmin.change_view (Sample.get "staff" [] "") 3 (mkArgs [] [])
        Sample.ready).1
     = Raise (mkExn KeyError ByBuiltin)
  /\ (subclass_view Sample.fw (Sample.get "staff" [] "") "3/history/"
        Sample.ready).1
     = Raise (mkExn KeyError ByBuiltin).
Proof. repeat split; reflexivity. Qed.

(** C4, as the specification has it, fails: the sample's database has no
    object with the id 2^63, and refuses the id with [OverflowError]
    instead of answering [DoesNotExist].  That exception passes the handler
    of the type lookup: [change_view] and [subclass_view] raise it, not
    [Http404]. *)
Lemma missing_object_not_always_Http404 :
  base_model (this Sample.ready) = Some Sample.Page
  /\ objects Sample.Page !! (2 ^ 63) = None
  /\ _get_type_by_object_id (2 ^ 63) Sample.ready
     = (Raise (mkExn (Other "OverflowError") ByCallee), Sample.ready)
  /\ ParentModelAdmin.change_view (Sample.get "staff" [] "") (2 ^ 63)
       (mkArgs [] []) Sample.ready
     = (Raise (mkExn (Other "OverflowError") ByCallee), Sample.ready)
  /\ subclass_view Sample.fw (Sample.get "staff" [] "")
       "9223372036854775808/history/" Sample.ready
     = (Raise (mkExn (Other "OverflowError") ByCallee), Sample.ready).
Proof. repeat split; reflexivity. Qed.

(** C4, amended: when no object of the base model has the given id and the
    manager's lookup says so by raising [DoesNotExist], the type lookup
    raises [Http404], and so do [change_view], [changeform_view] (where the
    class defines it and the id is truthy) and [subclass_view] (for a
    request without type parameter and a path whose segment before the
    first slash reads as that id).  The world is left as it was: no child
    admin has been entered. *)
Theorem missing_object_raises_Http404 (fw : Framework) (w : World)
    (request : HttpRequest) (object_id : Z) (rest : CallArgs) (base : Model) :
  base_model (this w) = Some base ->
  objects base !! object_id = None ->
  lookup_error base object_id = DoesNotExist ->
  _get_type_by_object_id object_id w = (Raise (mkExn Http404 ByModule), w)
  /\ ParentModelAdmin.change_view request object_id rest w
     = (Raise (mkExn Http404 ByModule), w)
  /\ (version_ge (VERSION fw) (1, 7)%nat = true -> object_id <> 0 ->
      ParentModelAdmin.changeform_view fw request (Some object_id) rest w
      = (Raise (mkExn Http404 ByModule), w))
  /\ (forall seg path : string,
      no_type_parameter fw request ->
      is_first_segment seg path ->
      long_str fw seg = Some object_id ->
      subclass_view fw request path w = (Raise (mkExn Http404 ByModule), w)).
Proof.
  intros Hbase Hobj Herr.
  pose proof (_get_type_by_object_id_missing w base Hbase object_id Hobj Herr)
    as Hty.
  split; [exact Hty|]. split; [|split].
  - unfold ParentModelAdmin.change_view, bind at 1. now rewrite Hty.
  - intros Hver Hnz. unfold ParentModelAdmin.changeform_view. rewrite Hver.
    destruct (Z.eqb_spec object_id 0) as [|_]; [contradiction|].
    unfold bind at 1. now rewrite Hty.
  - intros seg path Hno Hseg Hlong. unfold subclass_view, bind at 1.
    rewrite int_no_type_parameter by assumption.
    change (0 =? 0)%Z with true. cbv beta iota.
    unfold bind at 1. unfold bind at 1.
    rewrite path_object_id, (first_segment_spec seg path Hseg), Hlong.
    now rewrite Hty.
Qed.

(** The sample has no object 9, and its database says so. *)
Lemma missing_object_raises_Http404_witness :
  _get_type_by_object_id 9 Sample.ready
  = (Raise (mkExn Http404 ByModule), Sample.ready)
  /\ ParentModelAdmin.change_view (Sample.get "staff" [] "") 9 (mkArgs [] [])
       Sample.ready
     = (Raise (mkExn Http404 ByModule), Sample.ready)
  /\ ParentModelAdmin.changeform_view Sample.fw (Sample.get "staff" [] "")
       (Some 9) (mkArgs [] []) Sample.ready
     = (Raise (mkExn Http404 ByModule), Sample.ready)
  /\ subclass_view Sample.fw (Sample.get "staff" [] "") "9/history/"
       Sample.ready
     = (Raise (mkExn Http404 ByModule), Sample.ready).
Proof.
  destruct (missing_object_raises_Http404 Sample.fw Sample.ready
              (Sample.get "staff" [] "") 9 (mkArgs [] []) Sample.Page
              eq_refl eq_refl eq_refl) as (Hty & Hchange & Hform & Hsub).
  split; [exact Hty|]. split; [exact Hchange|]. split.
  - apply Hform; [reflexivity | discriminate].
  - apply (Hsub "9" "9/history/"); [exact I | | reflexivity].
    split; [|right; exists "history/"; reflexivity].
    intros [H|[]]. discriminate H.
Defined.

(** C5: for a request whose user may not add, [add_type_view] raises
    [PermissionDenied] and has done nothing before: no response, whether
    a page or a redirect, exists, and the world is as it was. *)
Theorem add_type_view_permission_denied (fw : Framework) (w : World)
    (request : HttpRequest) (form_url : string) :
  has_add_permission fw request = false ->
  add_type_view fw request form_url w
  = (Raise (mkExn PermissionDenied ByModule), w).
Proof.
  intros Hperm. unfold add_type_view. now rewrite Hperm.
Qed.

Lemma add_type_view_permission_denied_witness :
  add_type_view Sample.fw (Sample.get "anon" [] "") "" Sample.ready
  = (Raise (mkExn PermissionDenied ByModule), Sample.ready).
Proof.
  apply (add_type_view_permission_denied Sample.fw Sample.ready
           (Sample.get "anon" [] "") "").
  reflexivity.
Defined.

(** C6: misconfiguration raises [RuntimeError].  Once the lazy setup is
    complete, [register_child] raises it for every model and admin class
    and leaves the admin, with the registry of its child admin site, as it
    was.  [_get_real_admin] raises it for a type value that is a key of the
    child models when the child admin site has no admin for that key's
    model. *)
Theorem misconfiguration_raises_RuntimeError :
  (forall (fw : Framework) (w : World) (model : Model)
          (model_admin : AdminClass),
     _is_setup (this w) = true ->
     register_child fw model model_admin w
     = (Raise (mkExn RuntimeError ByModule), w))
  /\ (forall (w : World) (type_value : Z) (d : gmap Z (Model * AdminClass))
             (m : Model) (cls : AdminClass),
        _child_models (this w) = Some d ->
        d !! type_value = Some (m, cls) ->
        _registry (_child_admin_site (this w)) !! m_name m = None ->
        _get_real_admin type_value w
        = (Raise (mkExn RuntimeError ByModule), w)).
Proof.
  split.
  - intros fw w model model_admin Hsetup.
    unfold register_child, bind at 1, attr. now rewrite Hsetup.
  - intros w type_value d m cls Hsetup Hd Hreg.
    now apply (_get_real_admin_unregistered w d Hsetup type_value m cls).
Qed.

(** Registering after the setup of the sample; and the type 1 on a site
    that skipped the registration of its model. *)
Lemma misconfiguration_raises_RuntimeError_witness :
  register_child Sample.fw Sample.Article Sample.ArticleAdmin Sample.ready
  = (Raise (mkExn RuntimeError ByModule), Sample.ready)
  /\ _get_real_admin 1 Sample.unregistered
     = (Raise (mkExn RuntimeError ByModule), Sample.unregistered).
Proof.
  destruct misconfiguration_raises_RuntimeError as [Hregister Hadmin].
  split.
  - apply Hregister. reflexivity.
  - apply (Hadmin Sample.unregistered 1
             (Py.dict [(1, (Sample.Article, Sample.ArticleAdmin));
                       (2, (Sample.Gallery, Sample.GalleryAdmin))])
             Sample.Article Sample.ArticleAdmin); reflexivity.
Defined.

(** C8: take a request to [subclass_view] without a nonzero [type]
    parameter, and let [seg] be the segment of the path before its first
    slash (the whole path when it has none).  If [seg] is numeric, the
    object with that id exists, and the type in its discriminator field
    selects the child admin [real_admin], then the view asks [real_admin]
    for its URLs and resolves the whole path against them: a match is
    called with the request and the arguments of the match and its answer
    returned; no match is [Http404]; what the URLs or the resolver raise
    propagates.  If [seg] is not numeric, the view raises [Http404] and has
    done nothing else. *)
Theorem subclass_view_by_object_id (fw : Framework) (w : World)
    (request : HttpRequest) (seg path : string) :
  no_type_parameter fw request ->
  is_first_segment seg path ->
  (forall (object_id : Z) (base : Model) (obj : gmap string Z)
          (field : string) (t : Z) (d : gmap Z (Model * AdminClass))
          (m : Model) (cls : AdminClass) (real_admin : ModelAdmin),
     long_str fw seg = Some object_id ->
     base_model (this w) = Some base ->
     objects base !! object_id = Some obj ->
     type_field_name (this w) = Some field ->
     obj !! field = Some t ->
     _child_models (this w) = Some d ->
     d !! t = Some (m, cls) ->
     _registry (_child_admin_site (this w)) !! m_name m = Some real_admin ->
     let asked :=
       mkWorld (this w)
         (trace w ++ [CalledChild (admin_id real_admin) "urls"]) in
     subclass_view fw request path w =
       match Django.get_urls real_admin with
       | Raise c => (Raise (mkExn c ByCallee), asked)
       | Ok urls =>
           match resolve fw urls path with
           | Raise c => (Raise (mkExn c ByCallee), asked)
           | Ok None => (Raise (mkExn Http404 ByModule), asked)
           | Ok (Some rm) =>
               (from_callee (func rm request (match_args rm)),
                mkWorld (this w)
                  (trace w ++ [CalledChild (admin_id real_admin) "urls";
                               CalledResolved (admin_id real_admin) path]))
           end
       end)
  /\ (long_str fw seg = None ->
      subclass_view fw request path w = (Raise (mkExn Http404 ByModule), w)).
Proof.
  intros Hno Hseg. split.
  - intros object_id base obj field t d m cls real_admin
      Hlong Hbase Hobj Hname Hfield Hsetup Hd Hreg asked. subst asked.
    unfold subclass_view, bind at 1.
    rewrite int_no_type_parameter by assumption.
    change (0 =? 0)%Z with true. cbv beta iota.
    unfold bind at 1. unfold bind at 1.
    rewrite path_object_id, (first_segment_spec seg path Hseg), Hlong.
    rewrite (_get_type_by_object_id_found w base Hbase object_id obj field t)
      by assumption.
    unfold bind at 1.
    rewrite (_get_real_admin_found w d Hsetup t m cls real_admin)
      by assumption.
    unfold_monad. destruct (Django.get_urls real_admin) as [urls|c]; cbn;
      [|reflexivity].
    destruct (resolve fw urls path) as [[rm|]|c]; cbn; try reflexivity.
    now rewrite <- app_assoc.
  - intros Hlong. unfold subclass_view, bind at 1.
    rewrite int_no_type_parameter by assumption.
    change (0 =? 0)%Z with true. cbv beta iota.
    unfold bind at 1. unfold bind at 1.
    now rewrite path_object_id, (first_segment_spec seg path Hseg), Hlong.
Qed.

(** The history of object 1, an article; and the path [add/], whose first
    segment is no number. *)
Lemma subclass_view_by_object_id_witness :
  subclass_view Sample.fw (Sample.get "staff" [] "") "1/history/" Sample.ready
  = (Ok (Response "history of 1"),
     mkWorld (this Sample.ready)
       [CalledChild "ArticleAdmin" "urls";
        CalledResolved "ArticleAdmin" "1/history/"])
  /\ subclass_view Sample.fw (Sample.get "staff" [] "") "add/" Sample.ready
     = (Raise (mkExn Http404 ByModule), Sample.ready).
Proof.
  split.
  - destruct (subclass_view_by_object_id Sample.fw Sample.ready
                (Sample.get "staff" [] "") "1" "1/history/" I) as [Hnum _].
    { split; [|right; exists "history/"; reflexivity].
      intros [H|[]]. discriminate H. }
    apply (Hnum 1 Sample.Page {["kind" := 1]} "kind" 1
             (Py.dict [(1, (Sample.Article, Sample.ArticleAdmin));
                       (2, (Sample.Gallery, Sample.GalleryAdmin))])
             Sample.Article Sample.ArticleAdmin
             (Sample.child "ArticleAdmin" Sample.Article));
      reflexivity.
  - destruct (subclass_view_by_object_id Sample.fw Sample.ready
                (Sample.get "staff" [] "") "add" "add/" I) as [_ Hnot].
    { split; [|right; exists ""; reflexivity].
      intros [H|[H|[H|[]]]]; discriminate H. }
    apply Hnot. reflexivity.
Defined.

(** C9: for a request whose user may add, when the child models give
    exactly one type choice, [add_type_view] returns at once the redirect
    to [?type=] that choice's key, followed by [&] and the query string of
    the request when it has one.  The world is as it was: no form has been
    built and no template rendered. *)
Theorem add_type_view_single_choice (fw : Framework) (w : World)
    (request : HttpRequest) (form_url : string) (key : Z) (m : Model)
    (cls : AdminClass) :
  has_add_permission fw request = true ->
  child_models (this w) = Some [(key, (m, cls))] ->
  add_type_view fw request form_url w =
    (Ok (HttpResponseRedirect
           ("?type=" ++ Py.str key ++
            (if String.eqb (QUERY_STRING request) "" then ""
             else "&" ++ QUERY_STRING request))),
     w).
Proof.
  intros Hperm Hmodels. unfold add_type_view. rewrite Hperm. cbn [negb].
  unfold get_child_type_choices, get_child_models. unfold_monad.
  now rewrite Hmodels.
Qed.

Lemma add_type_view_single_choice_witness :
  add_type_view Sample.fw (Sample.get "staff" [] "a=b") ""
    (mkWorld Sample.single [])
  = (Ok (HttpResponseRedirect "?type=1&a=b"), mkWorld Sample.single []).
Proof.
  apply (add_type_view_single_choice Sample.fw (mkWorld Sample.single [])
           (Sample.get "staff" [] "a=b") "" 1 Sample.Article
           Sample.ArticleAdmin); reflexivity.
Defined.

(** *** Every call respects what the primitive steps respect *)

Section respect.

Variables (I : Self -> Prop) (E : Exn -> Prop).

Hypothesis I_child_models :
  forall d s, I s -> I (set_child_models d s).
Hypothesis I_child_registry :
  forall r s, I s -> I (set_child_registry r s).
Hypothesis I_is_setup : forall s, I s -> I (set_is_setup true s).
Hypothesis E_module :
  forall c, In c module_exceptions -> E (mkExn c ByModule).
Hypothesis E_builtin : forall c, E (mkExn c ByBuiltin).
Hypothesis E_callee : forall c, E (mkExn c ByCallee).

Lemma respects_ret {A} (a : A) : respects I E (ret a).
Proof. intros w HI. split; [exact HI | discriminate]. Qed.

Lemma respects_bind {A B} (m : M A) (f : A -> M B) :
  respects I E m -> (forall a, respects I E (f a)) ->
  respects I E (bind m f).
Proof.
  intros Hm Hf w HI. unfold bind.
  destruct (Hm w HI) as [HI' HE]. destruct (m w) as [[a|e] w1].
  - now apply Hf.
  - split; [exact HI'|]. intros e' [= <-]. now apply HE.
Qed.

Lemma respects_raise {A} (c : ExnClass) :
  In c module_exceptions -> respects I E (@raise A c).
Proof.
  intros Hc w HI. split; [exact HI|].
  intros e [= <-]. now apply E_module.
Qed.

Lemma respects_fail_builtin {A} (c : ExnClass) :
  respects I E (@fail_builtin A c).
Proof. intros w HI. split; [exact HI|]. intros e [= <-]. apply E_builtin. Qed.

Lemma respects_callee {A} (r : Result ExnClass A) : respects I E (callee r).
Proof.
  intros w HI. split; [exact HI|].
  destruct r as [a|c]; simpl; intros e [= <-]. apply E_callee.
Qed.

Lemma respects_try_except {A} (body handler : M A) (c : ExnClass) :
  respects I E body -> respects I E handler ->
  respects I E (try_except body c handler).
Proof.
  intros Hb Hh w HI. unfold try_except.
  destruct (Hb w HI) as [HI' HE]. destruct (body w) as [[a|e] w1].
  - split; [exact HI' | discriminate].
  - destruct (decide (exn_class e = c)); [now apply Hh|].
    split; [exact HI' | exact HE].
Qed.

Lemma respects_attr {A} (f : Self -> A) : respects I E (attr f).
Proof. intros w HI. split; [exact HI | discriminate]. Qed.

Lemma respects_emit (ev : Event) : respects I E (emit ev).
Proof. intros w HI. split; [exact HI | discriminate]. Qed.

Lemma respects_assign (f : Self -> Self) :
  (forall s, I s -> I (f s)) -> respects I E (assign f).
Proof. intros Hf w HI. split; [now apply Hf | discriminate]. Qed.

Lemma respects_for_each {A} (l : list A) (body : A -> M unit) :
  (forall x, respects I E (body x)) -> respects I E (for_each l body).
Proof.
  intros Hbody. induction l as [|x l IH]; simpl.
  - apply respects_ret.
  - apply respects_bind; [apply Hbody | intros _; exact IH].
Qed.

(** One step through a method body. *)
Ltac respects_step :=
  lazymatch goal with
  | |- respects _ _ (bind _ _) => apply respects_bind; [|intros ?]
  | |- respects _ _ (ret _) => apply respects_ret
  | |- respects _ _ (raise _) =>
      apply respects_raise; unfold module_exceptions; simpl; tauto
  | |- respects _ _ (fail_builtin _) => apply respects_fail_builtin
  | |- respects _ _ (callee _) => apply respects_callee
  | |- respects _ _ (try_except _ _ _) => apply respects_try_except
  | |- respects _ _ (attr _) => apply respects_attr
  | |- respects _ _ (emit _) => apply respects_emit
  | |- respects _ _ (assign _) => apply respects_assign; auto
  | |- respects _ _ (for_each _ _) => apply respects_for_each; intros ?
  | |- respects _ _ (if ?b then _ else _) => destruct b
  | |- respects _ _ (match ?x with _ => _ end) => destruct x
  end.

Ltac respects_body :=
  unfold subscript, first, getattr, objects_get, issubclass, int, long,
    attr_child_models;
  repeat respects_step.

Lemma respects_get_child_models : respects I E get_child_models.
Proof. unfold get_child_models. respects_body. Qed.

Lemma respects_register_child fw model model_admin :
  respects I E (register_child fw model model_admin).
Proof. unfold register_child. respects_body. Qed.

Lemma respects__lazy_setup fw : respects I E (_lazy_setup fw).
Proof.
  unfold _lazy_setup. repeat respects_step;
    auto using respects_get_child_models, respects_register_child.
Qed.

Lemma respects_get_child_type_choices : respects I E get_child_type_choices.
Proof.
  unfold get_child_type_choices.
  repeat respects_step; auto using respects_get_child_models.
Qed.

Lemma respects__get_real_admin t : respects I E (_get_real_admin t).
Proof. unfold _get_real_admin. respects_body. Qed.

Lemma respects__get_type_by_object_id i :
  respects I E (_get_type_by_object_id i).
Proof. unfold _get_type_by_object_id. respects_body. Qed.

Lemma respects_render_add_type_form fw request context form_url :
  respects I E (render_add_type_form fw request context form_url).
Proof. unfold render_add_type_form. respects_body. Qed.

Lemma respects_add_type_view fw request form_url :
  respects I E (add_type_view fw request form_url).
Proof.
  unfold add_type_view. respects_body;
    auto using respects_get_child_type_choices, respects_render_add_type_form.
Qed.

Lemma respects_add_view fw request form_url extra_context :
  respects I E (ParentModelAdmin.add_view fw request form_url extra_context).
Proof.
  unfold ParentModelAdmin.add_view. respects_body;
    auto using respects_add_type_view, respects__get_real_admin.
Qed.

Lemma respects_change_view request object_id rest :
  respects I E (ParentModelAdmin.change_view request object_id rest).
Proof.
  unfold ParentModelAdmin.change_view. repeat respects_step;
    auto using respects__get_type_by_object_id, respects__get_real_admin.
Qed.

Lemma respects_changeform_view fw request object_id rest :
  respects I E (ParentModelAdmin.changeform_view fw request object_id rest).
Proof.
  unfold ParentModelAdmin.changeform_view. repeat respects_step;
    auto using respects__get_type_by_object_id, respects__get_real_admin.
Qed.

Lemma respects_collect_dummy_urls l acc :
  respects I E (collect_dummy_urls l acc).
Proof.
  revert acc. induction l as [|kv l IH]; intros acc; simpl.
  - apply respects_ret.
  - apply respects_bind; [apply respects__get_real_admin | intros admin].
    repeat respects_step. apply IH.
Qed.

Lemma respects_get_urls fw : respects I E (ParentModelAdmin.get_urls fw).
Proof.
  unfold ParentModelAdmin.get_urls. repeat respects_step;
    auto using respects__lazy_setup, respects_get_child_models,
      respects_collect_dummy_urls.
Qed.

Lemma respects_subclass_view fw request path :
  respects I E (subclass_view fw request path).
Proof.
  unfold subclass_view. respects_body;
    auto using respects__get_type_by_object_id, respects__get_real_admin.
Qed.

Lemma respects_outcome {A} (m : M A) (w : World) :
  respects I E m -> I (this w) ->
  I (this (outcome m w).2)
  /\ forall e, (outcome m w).1 = Some e -> E e.
Proof.
  intros Hm HI. unfold outcome. destruct (Hm w HI) as [HI' HE].
  destruct (m w) as [[a|e] w1].
  - split; [exact HI' | discriminate].
  - split; [exact HI'|]. intros e' [= <-]. now apply HE.
Qed.

(** Whatever is called, in whatever state. *)
Lemma respects_run (fw : Framework) (c : Call) (w : World) :
  I (this w) ->
  I (this (run fw c w).2) /\ forall e, (run fw c w).1 = Some e -> E e.
Proof.
  intros HI. destruct c; unfold run; apply respects_outcome;
    auto using respects_get_child_models, respects_register_child,
      respects__lazy_setup, respects_get_child_type_choices,
      respects__get_real_admin, respects_add_view,
      respects__get_type_by_object_id, respects_change_view,
      respects_changeform_view, respects_get_urls, respects_subclass_view,
      respects_add_type_view, respects_render_add_type_form.
Qed.

End respect.

(** C7, as the specification has it, fails: before the setup,
    [register_child] for a model that is no subclass of the base model
    raises [TypeError], by its own [raise] statement, and a [TypeError] is
    an instance of none of the three framework exceptions. *)
Lemma not_only_framework_exceptions :
  (run Sample.fw (call_register_child Sample.Comment Sample.ArticleAdmin)
     (mkWorld Sample.fresh [])).1
  = Some (mkExn TypeError ByModule)
  /\ instance_of_any TypeError framework_exceptions = false.
Proof. split; reflexivity. Qed.

(** C7, amended: every exception that a [raise] statement of the module
    raises, in any call of the class and from any state, is an instance of
    [Http404], [PermissionDenied], [RuntimeError] or [TypeError]; its class
    is one of these or [NotImplementedError], which derives from
    [RuntimeError].  (What a built-in operation raises, and what the
    framework or a child admin raises, propagates and is not bounded.) *)
Theorem module_raises_within_taxonomy (fw : Framework) (c : Call)
    (w w' : World) (e : Exn) :
  run fw c w = (Some e, w') ->
  exn_origin e = ByModule ->
  In (exn_class e) module_exceptions
  /\ instance_of_any (exn_class e) raised_exceptions = true.
Proof.
  intros Hrun Horigin.
  set (E := fun e : Exn =>
              exn_origin e = ByModule -> In (exn_class e) module_exceptions).
  assert (HE : forall e', (run fw c w).1 = Some e' -> E e').
  { apply (respects_run (fun _ => True) E); unfold E; simpl;
      solve [trivial | discriminate]. }
  assert (Hin : In (exn_class e) module_exceptions).
  { apply (HE e); [now rewrite Hrun | exact Horigin]. }
  split; [exact Hin|].
  unfold module_exceptions in Hin. simpl in Hin.
  destruct Hin as [<-|[<-|[<-|[<-|[<-|[]]]]]]; reflexivity.
Qed.

(** Registering a model that is no subclass of the base model; and an
    admin without [child_models], whose [NotImplementedError] is a
    [RuntimeError]. *)
Lemma module_raises_within_taxonomy_witness :
  (In TypeError module_exceptions
   /\ instance_of_any TypeError raised_exceptions = true)
  /\ (In NotImplementedError module_exceptions
      /\ instance_of_any NotImplementedError raised_exceptions = true).
Proof.
  split.
  - apply (module_raises_within_taxonomy Sample.fw
             (call_register_child Sample.Comment Sample.ArticleAdmin)
             (mkWorld Sample.fresh []) (mkWorld Sample.fresh [])
             (mkExn TypeError ByModule)); reflexivity.
  - apply (module_raises_within_taxonomy Sample.fw call_get_child_models
             (mkWorld Sample.bare []) (mkWorld Sample.bare [])
             (mkExn NotImplementedError ByModule)); reflexivity.
Defined.

(** C10: once [_is_setup] is true, [_lazy_setup] returns at once and
    leaves the admin unchanged, so also [_child_models] and the registry of
    the child admin site; and no call of the class, whether it returns or
    raises, ends with [_is_setup] false when it started with it true.
    ([__init__], which starts a new admin with [_is_setup] false, builds
    the object and is not a call on it.) *)
Theorem lazy_setup_idempotent_is_setup_monotone :
  (forall (fw : Framework) (w : World),
     _is_setup (this w) = true -> _lazy_setup fw w = (Ok tt, w))
  /\ (forall (fw : Framework) (c : Call) (w : World),
        _is_setup (this w) = true ->
        _is_setup (this (run fw c w).2) = true).
Proof.
  split.
  - intros fw w Hsetup. unfold _lazy_setup, bind at 1, attr.
    now rewrite Hsetup.
  - intros fw c w Hsetup.
    now apply (respects_run (fun s => _is_setup s = true) (fun _ => True)).
Qed.

Lemma lazy_setup_idempotent_is_setup_monotone_witness :
  _lazy_setup Sample.fw Sample.ready = (Ok tt, Sample.ready)
  /\ _is_setup
       (this (run Sample.fw
                (call_add_view (Sample.get "staff" [("type", "5")] "type=5")
                   "" None)
                Sample.ready).2) = true.
Proof.
  destruct lazy_setup_idempotent_is_setup_monotone as [Hidem Hmono].
  split; [apply Hidem | apply Hmono]; reflexivity.
Defined.

(** *** The setup and the sample *)

Example str_positive : Py.str 12 = "12".
Proof. reflexivity. Qed.

Example str_negative : Py.str (-5) = "-5".
Proof. reflexivity. Qed.

Example find_first_slash : Py.find "12/history/" "/" = 2.
Proof. reflexivity. Qed.

Example find_no_slash : Py.find "12" "/" = -1.
Proof. reflexivity. Qed.

Example first_segment_of_path : first_segment "12/history/" = "12".
Proof. reflexivity. Qed.

Example first_segment_of_leading_slash : first_segment "/12" = "".
Proof. reflexivity. Qed.

Example dict_later_pair_wins : Py.dict [(1, "a"); (1, "b")] !! 1 = Some "b".
Proof. reflexivity. Qed.

Example sample_is_set_up :
  _is_setup (this Sample.ready) = true
  /\ admin_id <$> _registry (_child_admin_site (this Sample.ready))
     = {[ "pages.Article" := "ArticleAdmin"; "pages.Gallery" := "GalleryAdmin" ]}.
Proof. split; reflexivity. Qed.

(** An object without the type field: the handler of [AttributeError]. *)
Example change_view_without_type_field :
  (ParentModelAdmin.change_view (Sample.get "staff" [] "") 4 (mkArgs [] [])
     Sample.ready).1
  = Raise (mkExn NotImplementedError ByModule).
Proof. reflexivity. Qed.

(** A type parameter that is no number. *)
Example add_view_malformed_type :
  (ParentModelAdmin.add_view Sample.fw
     (Sample.get "staff" [("type", "x")] "type=x") "" None Sample.ready).1
  = Raise (mkExn ValueError ByBuiltin).
Proof. reflexivity. Qed.

(** Two choices and a GET request: the type-selection form is rendered. *)
Example add_view_renders_form :
  match ParentModelAdmin.add_view Sample.fw (Sample.get "staff" [] "") "" None
          Sample.ready with
  | (Ok (render_to_response templates _ current_app), w') =>
      templates = ["admin/pages/page/add_type_form.html";
                   "admin/pages/add_type_form.html";
                   "admin/add_type_form.html"]
      /\ current_app = "admin"
      /\ trace w' = [FormBuilt; Rendered templates]
  | _ => False
  end.
Proof. vm_compute. repeat split. Qed.

(** A POST that chooses the type 2 is redirected to the add page of 2. *)
Example add_view_valid_choice :
  (ParentModelAdmin.add_view Sample.fw
     (mkRequest "staff" "POST" ∅ {["type" := "2"]} "") "" None Sample.ready).1
  = Ok (HttpResponseRedirect "?type=2").
Proof. reflexivity. Qed.

(** *** The two lookups: all that they can raise *)

(** X1: when [_get_real_admin] raises, it has changed nothing, and the
    exception is the [AttributeError] of a missing [_child_models], the
    [KeyError] of an unknown type value, or the [RuntimeError] of a model
    without admin.  It is never [Http404]: the handler for [IndexError]
    cannot be reached. *)
Theorem _get_real_admin_raises (w w' : World) (t : Z) (e : Exn) :
  _get_real_admin t w = (Raise e, w') ->
  w' = w
  /\ (e = mkExn AttributeError ByBuiltin
      \/ e = mkExn KeyError ByBuiltin
      \/ e = mkExn RuntimeError ByModule)
  /\ exn_class e <> Http404.
Proof.
  unfold _get_real_admin. unfold_monad.
  destruct (_child_models (this w)) as [d|];
    [destruct (d !! t) as [[m cls]|];
       [cbn; destruct (_registry (_child_admin_site (this w)) !! m_name m)|]|];
    cbn; intros [= <- <-]; repeat split; auto; discriminate.
Qed.

Lemma _get_real_admin_raises_witness :
  Sample.ready = Sample.ready
  /\ (mkExn KeyError ByBuiltin = mkExn AttributeError ByBuiltin
      \/ mkExn KeyError ByBuiltin = mkExn KeyError ByBuiltin
      \/ mkExn KeyError ByBuiltin = mkExn RuntimeError ByModule)
  /\ exn_class (mkExn KeyError ByBuiltin) <> Http404.
Proof.
  apply (_get_real_admin_raises Sample.ready Sample.ready 5
           (mkExn KeyError ByBuiltin)).
  reflexivity.
Defined.

(** X2: when [_get_type_by_object_id] raises, it has changed nothing, and
    the exception is [Http404] (the manager raised [DoesNotExist]),
    [NotImplementedError] (the object has no attribute of the name
    [type_field_name]), the [AttributeError] of a [base_model] that is
    [None], the [TypeError] that [getattr] raises for a [type_field_name]
    that is [None], or whatever else than [DoesNotExist] the manager's
    lookup raised for an id without object, unchanged. *)
Theorem _get_type_by_object_id_raises (w w' : World) (object_id : Z)
    (e : Exn) :
  _get_type_by_object_id object_id w = (Raise e, w') ->
  w' = w
  /\ (e = mkExn Http404 ByModule
      \/ e = mkExn NotImplementedError ByModule
      \/ e = mkExn AttributeError ByBuiltin
      \/ e = mkExn TypeError ByBuiltin
      \/ exists base,
           base_model (this w) = Some base
           /\ objects base !! object_id = None
           /\ lookup_error base object_id <> DoesNotExist
           /\ e = mkExn (lookup_error base object_id) ByCallee).
Proof.
  unfold _get_type_by_object_id. unfold_monad.
  destruct (base_model (this w)) as [base|] eqn:Hbase;
    [destruct (objects base !! object_id) as [obj|] eqn:Hobj;
       [cbn; destruct (type_field_name (this w)) as [field|];
          [destruct (obj !! field)|]|]|];
    cbn; try (intros [= <- <-]; auto 6; fail).
  destruct (decide (lookup_error base object_id = DoesNotExist)) as [Herr|Herr];
    intros [= <- <-]; [auto|].
  split; [reflexivity|]. do 4 right. exists base. auto.
Qed.

Lemma _get_type_by_object_id_raises_witness :
  Sample.ready = Sample.ready
  /\ (mkExn (Other "OverflowError") ByCallee = mkExn Http404 ByModule
      \/ mkExn (Other "OverflowError") ByCallee
         = mkExn NotImplementedError ByModule
      \/ mkExn (Other "OverflowError") ByCallee
         = mkExn AttributeError ByBuiltin
      \/ mkExn (Other "OverflowError") ByCallee = mkExn TypeError ByBuiltin
      \/ exists base,
           base_model (this Sample.ready) = Some base
           /\ objects base !! (- 2 ^ 63 - 1) = None
           /\ lookup_error base (- 2 ^ 63 - 1) <> DoesNotExist
           /\ mkExn (Other "OverflowError") ByCallee
              = mkExn (lookup_error base (- 2 ^ 63 - 1)) ByCallee).
Proof.
  apply (_get_type_by_object_id_raises Sample.ready Sample.ready
           (- 2 ^ 63 - 1) (mkExn (Other "OverflowError") ByCallee)).
  reflexivity.
Defined.

(** X3: the type field is looked up by name.  For an existing object
    without an attribute of the configured name the lookup raises
    [NotImplementedError]; when [type_field_name] was never configured,
    [getattr] raises [TypeError] before the handler for [AttributeError]
    could turn it into [NotImplementedError]. *)
Theorem _get_type_by_object_id_without_field (w : World) (object_id : Z)
    (base : Model) (obj : gmap string Z) :
  base_model (this w) = Some base ->
  objects base !! object_id = Some obj ->
  (forall field : string,
     type_field_name (this w) = Some field -> obj !! field = None ->
     _get_type_by_object_id object_id w
     = (Raise (mkExn NotImplementedError ByModule), w))
  /\ (type_field_name (this w) = None ->
      _get_type_by_object_id object_id w
      = (Raise (mkExn TypeError ByBuiltin), w)).
Proof.
  intros Hbase Hobj. split.
  - intros field Hname Hfield. unfold _get_type_by_object_id. unfold_monad.
    rewrite Hbase, Hobj. cbn. now rewrite Hname, Hfield.
  - intros Hname. unfold _get_type_by_object_id. unfold_monad.
    rewrite Hbase, Hobj. cbn. now rewrite Hname.
Qed.

Lemma _get_type_by_object_id_without_field_witness :
  _get_type_by_object_id 4 Sample.ready
  = (Raise (mkExn NotImplementedError ByModule), Sample.ready)
  /\ _get_type_by_object_id 1
       (mkWorld (__init__ (Some Sample.Page) None None None Sample.Page
                   Sample.site) [])
     = (Raise (mkExn TypeError ByBuiltin),
        mkWorld (__init__ (Some Sample.Page) None None None Sample.Page
                   Sample.site) []).
Proof.
  split.
  - destruct (_get_type_by_object_id_without_field Sample.ready 4
                Sample.Page {["title" := 0]} eq_refl eq_refl) as [Hfield _].
    apply (Hfield "kind"); reflexivity.
  - destruct (_get_type_by_object_id_without_field
                (mkWorld (__init__ (Some Sample.Page) None None None
                            Sample.Page Sample.site) [])
                1 Sample.Page {["kind" := 1]} eq_refl eq_refl) as [_ Hnone].
    apply Hnone. reflexivity.
Defined.

(** X4: an admin as [__init__] leaves it has no [_child_models] yet.  Until
    [get_urls] has run the setup, every dispatch raises [AttributeError]:
    [_get_real_admin] for every type value, and [add_view] for every
    request with a nonzero type parameter. *)
Theorem dispatch_before_setup (fw : Framework)
    (base_model : option Model)
    (child_models : option (list (Z * (Model * AdminClass))))
    (type_field_name add_type_template : option string)
    (model : Model) (admin_site : AdminSite) (tr : list Event) :
  let w := mkWorld (__init__ base_model child_models type_field_name
                      add_type_template model admin_site) tr in
  (forall t : Z,
     _get_real_admin t w = (Raise (mkExn AttributeError ByBuiltin), w))
  /\ (forall (request : HttpRequest) (form_url : string)
             (extra_context : ExtraContext) (s : string) (N : Z),
        GET request !! "type" = Some s -> int_str fw s = Some N -> N <> 0 ->
        ParentModelAdmin.add_view fw request form_url extra_context w
        = (Raise (mkExn AttributeError ByBuiltin), w)).
Proof.
  intros w.
  assert (Hadmin : forall t,
             _get_real_admin t w = (Raise (mkExn AttributeError ByBuiltin), w))
    by reflexivity.
  split; [exact Hadmin|].
  intros request form_url extra_context s N Hget Hint Hnz.
  unfold ParentModelAdmin.add_view, bind at 1.
  unfold int, QueryDict_get. rewrite Hget, Hint. unfold ret at 1.
  destruct (Z.eqb_spec N 0) as [|_]; [contradiction|].
  unfold bind at 1. now rewrite Hadmin.
Qed.

Lemma dispatch_before_setup_witness :
  ParentModelAdmin.add_view Sample.fw
    (Sample.get "staff" [("type", "1")] "type=1") "" None
    (mkWorld Sample.fresh [])
  = (Raise (mkExn AttributeError ByBuiltin), mkWorld Sample.fresh []).
Proof.
  destruct (dispatch_before_setup Sample.fw (Some Sample.Page)
              (Some [(1, (Sample.Article, Sample.ArticleAdmin));
                     (2, (Sample.Gallery, Sample.GalleryAdmin))])
              (Some "kind") None Sample.Page Sample.site []) as [_ Hadd].
  apply (Hadd (Sample.get "staff" [("type", "1")] "type=1") "" None "1" 1);
    solve [reflexivity | discriminate].
Defined.

(** *** Registration and the lazy setup *)

(** X5: a [register_child] that raises, for whatever reason, leaves the
    admin and its child admin site as they were. *)
Theorem register_child_raises_unchanged (fw : Framework) (w w' : World)
    (model : Model) (model_admin : AdminClass) (e : Exn) :
  register_child fw model model_admin w = (Raise e, w') -> w' = w.
Proof.
  unfold register_child. unfold_monad.
  destruct (_is_setup (this w)); [now intros [= _ <-]|].
  destruct (base_model (this w)) as [base|]; [|now intros [= _ <-]].
  destruct (bool_decide (m_name base ∈ m_mro model)); cbn;
    [|now intros [= _ <-]].
  destruct (ac_is_model_admin model_admin); cbn; [|now intros [= _ <-]].
  destruct (register fw _ model model_admin); cbn; [discriminate|].
  now intros [= _ <-].
Qed.

Lemma register_child_raises_unchanged_witness :
  mkWorld Sample.fresh [] = mkWorld Sample.fresh [].
Proof.
  apply (register_child_raises_unchanged Sample.fw (mkWorld Sample.fresh [])
           (mkWorld Sample.fresh []) Sample.Comment Sample.ArticleAdmin
           (mkExn TypeError ByModule)).
  reflexivity.
Defined.

(** X6: before the setup, [register_child] raises [TypeError] for a model
    that is no subclass of the base model and for an admin class that does
    not derive from [admin.ModelAdmin]; the site's [register] is not
    reached. *)
Theorem register_child_type_checks (fw : Framework) (w : World)
    (model : Model) (model_admin : AdminClass) (base : Model) :
  _is_setup (this w) = false ->
  base_model (this w) = Some base ->
  m_name base ∉ m_mro model \/ ac_is_model_admin model_admin = false ->
  register_child fw model model_admin w
  = (Raise (mkExn TypeError ByModule), w).
Proof.
  intros Hsetup Hbase Hbad. unfold register_child. unfold_monad.
  rewrite Hsetup, Hbase.
  destruct (bool_decide_reflect (m_name base ∈ m_mro model)) as [Hsub|Hsub];
    cbn; [|reflexivity].
  destruct Hbad as [Hbad|Hbad]; [contradiction|]. now rewrite Hbad.
Qed.

Lemma register_child_type_checks_witness :
  register_child Sample.fw Sample.Comment Sample.ArticleAdmin
    (mkWorld Sample.fresh [])
  = (Raise (mkExn TypeError ByModule), mkWorld Sample.fresh [])
  /\ register_child Sample.fw Sample.Article
       (mkAdminClass "object" false (Sample.child "object"))
       (mkWorld Sample.fresh [])
     = (Raise (mkExn TypeError ByModule), mkWorld Sample.fresh []).
Proof.
  split.
  - apply (register_child_type_checks Sample.fw (mkWorld Sample.fresh [])
             Sample.Comment Sample.ArticleAdmin Sample.Page);
      [reflexivity | reflexivity | left].
    intros Hin. apply list_elem_of_In in Hin. simpl in Hin.
    destruct Hin as [H|[]]. discriminate H.
  - apply (register_child_type_checks Sample.fw (mkWorld Sample.fresh [])
             Sample.Article (mkAdminClass "object" false (Sample.child "object"))
             Sample.Page); [reflexivity | reflexivity | right; reflexivity].
Defined.

(** X7: before the setup, for a subclass of the base model and a proper
    admin class, [register_child] is the site's [register] on the child
    admin site: the registry becomes what [register] returns and nothing
    else changes, and what [register] raises is raised with nothing
    changed. *)
Theorem register_child_registers (fw : Framework) (w : World)
    (model : Model) (model_admin : AdminClass) (base : Model) :
  _is_setup (this w) = false ->
  base_model (this w) = Some base ->
  m_name base ∈ m_mro model ->
  ac_is_model_admin model_admin = true ->
  register_child fw model model_admin w =
    match register fw (_registry (_child_admin_site (this w))) model
            model_admin with
    | Ok reg' => (Ok tt, mkWorld (set_child_registry reg' (this w)) (trace w))
    | Raise c => (Raise (mkExn c ByCallee), w)
    end.
Proof.
  intros Hsetup Hbase Hsub Hadmin. unfold register_child. unfold_monad.
  rewrite Hsetup, Hbase, (bool_decide_eq_true_2 _ Hsub), Hadmin. cbn.
  now destruct (register fw _ model model_admin).
Qed.

Lemma register_child_registers_witness :
  (fun r => admin_id <$> _registry (_child_admin_site (this r.2)))
    (register_child Sample.fw Sample.Article Sample.ArticleAdmin
       (mkWorld Sample.fresh []))
  = {[ "pages.Article" := "ArticleAdmin" ]}.
Proof.
  rewrite (register_child_registers Sample.fw (mkWorld Sample.fresh [])
             Sample.Article Sample.ArticleAdmin Sample.Page);
    [reflexivity | reflexivity | reflexivity | | reflexivity].
  apply list_elem_of_In. simpl. auto.
Defined.

Lemma set_child_registry_same (s : Self) :
  set_child_registry (_registry (_child_admin_site s)) s = s.
Proof. destruct s as [? ? ? ? ? ? [? ?] ? ?]. reflexivity. Qed.

(** What one [register_child] does to the world. *)
Lemma register_child_step (fw : Framework) (w w2 : World) (model : Model)
    (model_admin : AdminClass) (r : Result Exn unit) :
  register_child fw model model_admin w = (r, w2) ->
  (exists e, r = Raise e /\ w2 = w)
  \/ (exists reg',
        r = Ok tt
        /\ register fw (_registry (_child_admin_site (this w))) model
             model_admin = Ok reg'
        /\ w2 = mkWorld (set_child_registry reg' (this w)) (trace w)).
Proof.
  unfold register_child. unfold_monad.
  destruct (_is_setup (this w)); [intros [= <- <-]; eauto|].
  destruct (base_model (this w)) as [base|]; [|intros [= <- <-]; eauto].
  destruct (bool_decide (m_name base ∈ m_mro model)); cbn;
    [|intros [= <- <-]; eauto].
  destruct (ac_is_model_admin model_admin); cbn; [|intros [= <- <-]; eauto].
  destruct (register fw _ model model_admin) as [reg'|c]; cbn;
    intros [= <- <-]; eauto.
Qed.

(** The loop of [_lazy_setup] changes the registry of the child admin site
    and nothing else, however it ends. *)
Lemma register_loop_frame (fw : Framework)
    (l : list (Z * (Model * AdminClass))) (w w1 : World)
    (r : Result Exn unit) :
  for_each l (fun kv => register_child fw kv.2.1 kv.2.2) w = (r, w1) ->
  exists reg, w1 = mkWorld (set_child_registry reg (this w)) (trace w).
Proof.
  revert w. induction l as [|kv l IH]; intros w; simpl.
  - intros [= _ <-]. exists (_registry (_child_admin_site (this w))).
    rewrite set_child_registry_same. now destruct w.
  - unfold bind.
    destruct (register_child fw kv.2.1 kv.2.2 w) as [r2 w2] eqn:Hstep.
    destruct (register_child_step _ _ _ _ _ _ Hstep)
      as [(e & -> & ->)|(reg' & -> & _ & ->)].
    + intros [= _ <-]. exists (_registry (_child_admin_site (this w))).
      rewrite set_child_registry_same. now destruct w.
    + intros Hrest. destruct (IH _ Hrest) as [reg ->]. now exists reg.
Qed.

(** When the loop returns and the site's [register] keeps its word, every
    model of the list is registered, and so is what was before. *)
Lemma register_loop_registers (fw : Framework) :
  register_keeps fw ->
  forall (l : list (Z * (Model * AdminClass))) (w w1 : World),
    for_each l (fun kv => register_child fw kv.2.1 kv.2.2) w = (Ok tt, w1) ->
    (forall kv, In kv l ->
       is_Some (_registry (_child_admin_site (this w1)) !! m_name kv.2.1))
    /\ (forall k,
          is_Some (_registry (_child_admin_site (this w)) !! k) ->
          is_Some (_registry (_child_admin_site (this w1)) !! k)).
Proof.
  intros Hkeeps l. induction l as [|kv l IH]; intros w w1; simpl.
  - intros [= <-]. split; [intros kv []|auto].
  - unfold bind.
    destruct (register_child fw kv.2.1 kv.2.2 w) as [r2 w2] eqn:Hstep.
    destruct (register_child_step _ _ _ _ _ _ Hstep)
      as [(e & -> & ->)|(reg' & -> & Hreg & ->)]; [discriminate|].
    intros Hrest. destruct (IH _ _ Hrest) as [Hall Hold].
    destruct (Hkeeps _ _ _ _ Hreg) as [Hnew Hkept].
    split.
    + intros kv' [<-|Hin]; [|now apply Hall].
      apply Hold. exact Hnew.
    + intros k Hk. apply Hold. cbn. now apply Hkept.
Qed.

(** The first [_lazy_setup], in terms of its loop. *)
Lemma _lazy_setup_first_run (fw : Framework) (w : World)
    (l : list (Z * (Model * AdminClass))) :
  _is_setup (this w) = false ->
  child_models (this w) = Some l ->
  _lazy_setup fw w =
    match for_each l (fun kv => register_child fw kv.2.1 kv.2.2) w with
    | (Ok _, w1) =>
        (Ok tt,
         mkWorld
           (set_is_setup true
              (set_child_registry
                 (_registry (_child_admin_site (this w1))
                  ∪ _registry (admin_site (this w1)))
                 (set_child_models (Py.dict l) (this w1))))
           (trace w1))
    | (Raise e, w1) => (Raise e, w1)
    end.
Proof.
  intros Hsetup Hmodels. unfold _lazy_setup, get_child_models.
  unfold bind at 1, attr at 1. rewrite Hsetup.
  unfold bind at 1. unfold bind at 1, attr at 1. rewrite Hmodels.
  unfold ret at 1. unfold bind at 1.
  now destruct (for_each l _ w) as [[[]|e] w1].
Qed.

(** [dict(pairs)] holds under each key a value that the list pairs with
    that key, and has every key of the list. *)
Lemma dict_lookup_In {V} (l : list (Z * V)) (k : Z) (v : V) :
  Py.dict l !! k = Some v -> In (k, v) l.
Proof.
  unfold Py.dict.
  assert (H : forall m0 : gmap Z V,
             fold_left (fun m p => <[p.1 := p.2]> m) l m0 !! k = Some v ->
             In (k, v) l \/ m0 !! k = Some v).
  { induction l as [|[k' v'] l IH]; intros m0; simpl; [auto|].
    intros Hl. destruct (IH _ Hl) as [Hin|Hm0]; [auto|].
    cbn in Hm0. destruct (decide (k' = k)) as [->|Hne].
    - rewrite lookup_insert_eq in Hm0. injection Hm0 as ->. auto.
    - rewrite lookup_insert_ne in Hm0 by exact Hne. auto. }
  intros Hl. destruct (H ∅ Hl) as [Hin|Hempty]; [exact Hin|].
  now rewrite lookup_empty in Hempty.
Qed.

Lemma dict_lookup_is_Some {V} (l : list (Z * V)) (k : Z) (v : V) :
  In (k, v) l -> is_Some (Py.dict l !! k).
Proof.
  unfold Py.dict.
  assert (H : forall m0 : gmap Z V,
             In (k, v) l \/ is_Some (m0 !! k) ->
             is_Some (fold_left (fun m p => <[p.1 := p.2]> m) l m0 !! k)).
  { induction l as [|[k' v'] l IH]; intros m0; simpl.
    - intros [[]|H]; exact H.
    - intros [[[= -> ->]|Hin]|Hm0]; apply IH; cbn.
      + right. rewrite lookup_insert_eq. eauto.
      + now left.
      + right. destruct (decide (k' = k)) as [->|Hne].
        * rewrite lookup_insert_eq. eauto.
        * now rewrite lookup_insert_ne by exact Hne. }
  intros Hin. apply H. now left.
Qed.

(** X8: a first [_lazy_setup] that returns has turned the configured pairs
    into the dict [_child_models] and has set [_is_setup]. *)
Theorem _lazy_setup_sets_child_models (fw : Framework) (w w' : World)
    (l : list (Z * (Model * AdminClass))) :
  _is_setup (this w) = false ->
  child_models (this w) = Some l ->
  _lazy_setup fw w = (Ok tt, w') ->
  _child_models (this w') = Some (Py.dict l) /\ _is_setup (this w') = true.
Proof.
  intros Hsetup Hmodels.
  rewrite (_lazy_setup_first_run fw w l Hsetup Hmodels).
  destruct (for_each l _ w) as [[[]|e] w1]; [|discriminate].
  now intros [= <-].
Qed.

Lemma _lazy_setup_sets_child_models_witness :
  _child_models (this (_lazy_setup Sample.fw (mkWorld Sample.fresh [])).2)
  = Some (Py.dict [(1, (Sample.Article, Sample.ArticleAdmin));
                   (2, (Sample.Gallery, Sample.GalleryAdmin))])
  /\ _is_setup (this (_lazy_setup Sample.fw (mkWorld Sample.fresh [])).2)
     = true.
Proof.
  apply (_lazy_setup_sets_child_models Sample.fw (mkWorld Sample.fresh [])
           (_lazy_setup Sample.fw (mkWorld Sample.fresh [])).2
           [(1, (Sample.Article, Sample.ArticleAdmin));
            (2, (Sample.Gallery, Sample.GalleryAdmin))]);
    reflexivity.
Defined.

(** X9: after a first [_lazy_setup] that returns, on a site whose
    [register] registers, every configured type value dispatches: for each
    pair of [child_models], [_get_real_admin] of its key returns an admin.
    No configured type can then meet the [RuntimeError] or the [KeyError]
    of the dispatch. *)
Theorem _lazy_setup_makes_dispatch_total (fw : Framework) (w w' : World)
    (l : list (Z * (Model * AdminClass))) :
  register_keeps fw ->
  _is_setup (this w) = false ->
  child_models (this w) = Some l ->
  _lazy_setup fw w = (Ok tt, w') ->
  forall (k : Z) (m : Model) (cls : AdminClass),
    In (k, (m, cls)) l ->
    exists real_admin, _get_real_admin k w' = (Ok real_admin, w').
Proof.
  intros Hkeeps Hsetup Hmodels.
  rewrite (_lazy_setup_first_run fw w l Hsetup Hmodels).
  destruct (for_each l _ w) as [[[]|e] w1] eqn:Hloop; [|discriminate].
  intros [= <-] k m cls Hin.
  destruct (register_loop_registers fw Hkeeps l w w1 Hloop) as [Hall _].
  destruct (dict_lookup_is_Some l k (m, cls) Hin) as [[m' cls'] Hd].
  pose proof (Hall _ (dict_lookup_In l k (m', cls') Hd)) as [a Ha].
  cbn in Ha.
  assert (Hunion :
    is_Some ((_registry (_child_admin_site (this w1))
              ∪ _registry (admin_site (this w1))) !! m_name m')).
  { apply lookup_union_is_Some. left. eauto. }
  destruct Hunion as [real_admin Hreal]. exists real_admin.
  eapply _get_real_admin_found; [reflexivity | exact Hd | exact Hreal].
Qed.

(** Django's [register], as [default_register] has it, keeps its word. *)
Lemma default_register_keeps (fw : Framework) :
  register fw = default_register -> register_keeps fw.
Proof.
  intros Hfw reg reg' m cls. rewrite Hfw. unfold default_register.
  destruct (reg !! m_name m) eqn:Hm; [discriminate|]. intros [= <-]. split.
  - rewrite lookup_insert_eq. eauto.
  - intros k Hk. destruct (decide (m_name m = k)) as [->|Hne].
    + rewrite lookup_insert_eq. eauto.
    + now rewrite lookup_insert_ne by exact Hne.
Qed.

Lemma _lazy_setup_makes_dispatch_total_witness :
  exists real_admin,
    _get_real_admin 2 (_lazy_setup Sample.fw (mkWorld Sample.fresh [])).2
    = (Ok real_admin, (_lazy_setup Sample.fw (mkWorld Sample.fresh [])).2).
Proof.
  apply (_lazy_setup_makes_dispatch_total Sample.fw (mkWorld Sample.fresh [])
           (_lazy_setup Sample.fw (mkWorld Sample.fresh [])).2
           [(1, (Sample.Article, Sample.ArticleAdmin));
            (2, (Sample.Gallery, Sample.GalleryAdmin))]
           (default_register_keeps Sample.fw eq_refl) eq_refl eq_refl eq_refl
           2 Sample.Gallery Sample.GalleryAdmin).
  simpl. auto.
Defined.

(** X10: a [_lazy_setup] that raises leaves the admin not set up:
    [_is_setup] is false and [_child_models] is as before, so that the next
    [get_urls] runs the setup again.  Only the registry of the child admin
    site may have changed, by the registrations made before the
    exception. *)
Theorem _lazy_setup_raises_not_set_up (fw : Framework) (w w' : World)
    (e : Exn) :
  _lazy_setup fw w = (Raise e, w') ->
  _is_setup (this w') = false
  /\ _child_models (this w') = _child_models (this w)
  /\ exists reg, w' = mkWorld (set_child_registry reg (this w)) (trace w).
Proof.
  destruct (_is_setup (this w)) eqn:Hsetup.
  - unfold _lazy_setup, bind at 1, attr. rewrite Hsetup. discriminate.
  - destruct (child_models (this w)) as [l|] eqn:Hmodels.
    + rewrite (_lazy_setup_first_run fw w l Hsetup Hmodels).
      destruct (for_each l _ w) as [[[]|e1] w1] eqn:Hloop; [discriminate|].
      intros [= _ <-].
      destruct (register_loop_frame fw l w w1 _ Hloop) as [reg ->].
      cbn. eauto.
    + unfold _lazy_setup, get_child_models. unfold_monad.
      rewrite Hsetup, Hmodels. intros [= _ <-].
      repeat split; [exact Hsetup|].
      exists (_registry (_child_admin_site (this w))).
      rewrite set_child_registry_same. now destruct w.
Qed.

(** An admin without [child_models]: the setup raises at once. *)
Lemma _lazy_setup_raises_not_set_up_witness :
  _is_setup (this (mkWorld Sample.bare [])) = false
  /\ _child_models (this (mkWorld Sample.bare []))
     = _child_models (this (mkWorld Sample.bare []))
  /\ exists reg,
       mkWorld Sample.bare []
       = mkWorld (set_child_registry reg (this (mkWorld Sample.bare [])))
           (trace (mkWorld Sample.bare [])).
Proof.
  apply (_lazy_setup_raises_not_set_up Sample.fw (mkWorld Sample.bare [])
           (mkWorld Sample.bare []) (mkExn NotImplementedError ByModule)).
  reflexivity.
Defined.

(** X11: a first [_lazy_setup] that returns makes the registry of the
    child admin site the union of the registrations of the child models
    and the registry of the admin's own site, a child registration taking
    precedence; the own site is not touched.  So every admin of the own
    site can be found through the child site afterwards. *)
Theorem _lazy_setup_merges_registries (fw : Framework) (w w' : World)
    (l : list (Z * (Model * AdminClass))) :
  _is_setup (this w) = false ->
  child_models (this w) = Some l ->
  _lazy_setup fw w = (Ok tt, w') ->
  admin_site (this w') = admin_site (this w)
  /\ (exists reg,
        for_each l (fun kv => register_child fw kv.2.1 kv.2.2) w
        = (Ok tt, mkWorld (set_child_registry reg (this w)) (trace w))
        /\ _registry (_child_admin_site (this w'))
           = reg ∪ _registry (admin_site (this w)))
  /\ (forall k,
        is_Some (_registry (admin_site (this w)) !! k) ->
        is_Some (_registry (_child_admin_site (this w')) !! k)).
Proof.
  intros Hsetup Hmodels.
  rewrite (_lazy_setup_first_run fw w l Hsetup Hmodels).
  destruct (for_each l _ w) as [[[]|e] w1] eqn:Hloop; [|discriminate].
  destruct (register_loop_frame fw l w w1 _ Hloop) as [reg ->].
  intros [= <-]. cbn. split; [reflexivity|]. split.
  - exists reg. split; reflexivity.
  - intros k Hk. apply lookup_union_is_Some. now right.
Qed.

Lemma _lazy_setup_merges_registries_witness :
  admin_id <$>
    _registry (_child_admin_site
                 (this (_lazy_setup Sample.fw
                          (mkWorld
                             (__init__ (Some Sample.Page)
                                (Some [(1, (Sample.Article, Sample.ArticleAdmin))])
                                (Some "kind") None Sample.Page
                                (mkSite "admin"
                                   {["talk.Comment" :=
                                       Sample.child "CommentAdmin" Sample.Comment]}))
                             [])).2))
  = {[ "pages.Article" := "ArticleAdmin"; "talk.Comment" := "CommentAdmin" ]}.
Proof.
  destruct (_lazy_setup_merges_registries Sample.fw
              (mkWorld
                 (__init__ (Some Sample.Page)
                    (Some [(1, (Sample.Article, Sample.ArticleAdmin))])
                    (Some "kind") None Sample.Page
                    (mkSite "admin"
                       {["talk.Comment" :=
                           Sample.child "CommentAdmin" Sample.Comment]}))
                 [])
              (_lazy_setup Sample.fw
                 (mkWorld
                    (__init__ (Some Sample.Page)
                       (Some [(1, (Sample.Article, Sample.ArticleAdmin))])
                       (Some "kind") None Sample.Page
                       (mkSite "admin"
                          {["talk.Comment" :=
                              Sample.child "CommentAdmin" Sample.Comment]}))
                    [])).2
              [(1, (Sample.Article, Sample.ArticleAdmin))]
              eq_refl eq_refl eq_refl) as (_ & (reg & Hloop & Hreg) & _).
  rewrite Hreg. injection Hloop as <-. reflexivity.
Defined.

(** *** The type parameter of a request *)

(** A type parameter that [int] reads as the nonzero [N]. *)
Lemma int_type_parameter (fw : Framework) (request : HttpRequest)
    (w : World) (s : string) (N : Z) :
  GET request !! "type" = Some s -> int_str fw s = Some N ->
  int fw (QueryDict_get (GET request) "type" (VInt 0)) w = (Ok N, w).
Proof. intros Hget Hint. unfold int, QueryDict_get. now rewrite Hget, Hint. Qed.

(** X12: without a type parameter, or with one that reads as zero,
    [add_view] is [add_type_view] on the request alone: the [form_url] and
    the [extra_context] that [add_view] was given are dropped. *)
Theorem add_view_without_type (fw : Framework) (w : World)
    (request : HttpRequest) (form_url : string)
    (extra_context : ExtraContext) :
  no_type_parameter fw request ->
  ParentModelAdmin.add_view fw request form_url extra_context w
  = add_type_view fw request "" w.
Proof.
  intros Hno. unfold ParentModelAdmin.add_view, bind at 1.
  now rewrite int_no_type_parameter by assumption.
Qed.

Lemma add_view_without_type_witness :
  ParentModelAdmin.add_view Sample.fw (Sample.get "staff" [("type", "0")] "x=1")
    "../" (Some [("title", VStr "New page")]) (mkWorld Sample.single [])
  = (Ok (HttpResponseRedirect "?type=1&x=1"), mkWorld Sample.single []).
Proof.
  rewrite (add_view_without_type Sample.fw (mkWorld Sample.single [])
             (Sample.get "staff" [("type", "0")] "x=1") "../"
             (Some [("title", VStr "New page")])); reflexivity.
Defined.

(** X13: a type parameter that [int] cannot read makes [add_view] and
    [subclass_view] raise the [ValueError] of the conversion, which stands
    outside every [try]; nothing else has happened. *)
Theorem malformed_type_parameter (fw : Framework) (w : World)
    (request : HttpRequest) (s : string) :
  GET request !! "type" = Some s ->
  int_str fw s = None ->
  (forall (form_url : string) (extra_context : ExtraContext),
     ParentModelAdmin.add_view fw request form_url extra_context w
     = (Raise (mkExn ValueError ByBuiltin), w))
  /\ (forall path : string,
        subclass_view fw request path w
        = (Raise (mkExn ValueError ByBuiltin), w)).
Proof.
  intros Hget Hint.
  assert (Hconv : int fw (QueryDict_get (GET request) "type" (VInt 0)) w
                  = (Raise (mkExn ValueError ByBuiltin), w)).
  { unfold int, QueryDict_get. now rewrite Hget, Hint. }
  split; intros; [unfold ParentModelAdmin.add_view | unfold subclass_view];
    unfold bind at 1; now rewrite Hconv.
Qed.

Lemma malformed_type_parameter_witness :
  ParentModelAdmin.add_view Sample.fw
    (Sample.get "staff" [("type", "article")] "type=article") "" None
    Sample.ready
  = (Raise (mkExn ValueError ByBuiltin), Sample.ready)
  /\ subclass_view Sample.fw
       (Sample.get "staff" [("type", "article")] "type=article")
       "1/history/" Sample.ready
     = (Raise (mkExn ValueError ByBuiltin), Sample.ready).
Proof.
  destruct (malformed_type_parameter Sample.fw Sample.ready
              (Sample.get "staff" [("type", "article")] "type=article")
              "article" eq_refl eq_refl) as [Hadd Hsub].
  split; [apply Hadd | apply Hsub].
Defined.

(** X14: with a type parameter that reads as a nonzero [N] selecting the
    child admin [real_admin], [subclass_view] does not look at the object
    id in the path, nor at any object: it asks [real_admin] for its URLs
    and resolves the path against them.  What the URLs or the resolver
    raise propagates, a resolver that returns no match gives [Http404], and
    a match is called with the request and its arguments. *)
Theorem subclass_view_by_type_parameter (fw : Framework) (w : World)
    (request : HttpRequest) (path : string) (s : string) (N : Z)
    (d : gmap Z (Model * AdminClass)) (m : Model) (cls : AdminClass)
    (real_admin : ModelAdmin) :
  GET request !! "type" = Some s ->
  int_str fw s = Some N ->
  N <> 0 ->
  _child_models (this w) = Some d ->
  d !! N = Some (m, cls) ->
  _registry (_child_admin_site (this w)) !! m_name m = Some real_admin ->
  let asked :=
    mkWorld (this w) (trace w ++ [CalledChild (admin_id real_admin) "urls"]) in
  subclass_view fw request path w =
    match Django.get_urls real_admin with
    | Raise c => (Raise (mkExn c ByCallee), asked)
    | Ok urls =>
        match resolve fw urls path with
        | Raise c => (Raise (mkExn c ByCallee), asked)
        | Ok None => (Raise (mkExn Http404 ByModule), asked)
        | Ok (Some rm) =>
            (from_callee (func rm request (match_args rm)),
             mkWorld (this w)
               (trace w ++ [CalledChild (admin_id real_admin) "urls";
                            CalledResolved (admin_id real_admin) path]))
        end
    end.
Proof.
  intros Hget Hint Hnz Hsetup Hd Hreg asked. subst asked.
  unfold subclass_view, bind at 1.
  rewrite (int_type_parameter fw request w s N) by assumption.
  destruct (Z.eqb_spec N 0) as [|_]; [contradiction|].
  unfold bind at 1. unfold ret at 1. unfold bind at 1.
  rewrite (_get_real_admin_found w d Hsetup N m cls real_admin) by assumption.
  unfold_monad. destruct (Django.get_urls real_admin) as [urls|c]; cbn;
    [|reflexivity].
  destruct (resolve fw urls path) as [[rm|]|c]; cbn; try reflexivity.
  now rewrite <- app_assoc.
Qed.

(** The history page of an object that does not exist, asked of the
    gallery admin by type. *)
Lemma subclass_view_by_type_parameter_witness :
  subclass_view Sample.fw (Sample.get "staff" [("type", "2")] "type=2")
    "99/history/" Sample.ready
  = (Raise (mkExn (Other "Resolver404") ByCallee),
     mkWorld (this Sample.ready) [CalledChild "GalleryAdmin" "urls"]).
Proof.
  rewrite (subclass_view_by_type_parameter Sample.fw Sample.ready
             (Sample.get "staff" [("type", "2")] "type=2") "99/history/"
             "2" 2
             (Py.dict [(1, (Sample.Article, Sample.ArticleAdmin));
                       (2, (Sample.Gallery, Sample.GalleryAdmin))])
             Sample.Gallery Sample.GalleryAdmin
             (Sample.child "GalleryAdmin" Sample.Gallery));
    solve [reflexivity | discriminate].
Defined.

(** *** changeform_view *)

(** X15: where the class defines [changeform_view] (Django 1.7 and later)
    and the object id is truthy, the view is the [changeform_view] of the
    child admin that the object's type selects, on the same request, id and
    remaining arguments. *)
Theorem changeform_view_delegates (fw : Framework) (w : World)
    (request : HttpRequest) (object_id : Z) (rest : CallArgs) (base : Model)
    (obj : gmap string Z) (field : string) (t : Z)
    (d : gmap Z (Model * AdminClass)) (m : Model) (cls : AdminClass)
    (real_admin : ModelAdmin) :
  version_ge (VERSION fw) (1, 7)%nat = true ->
  object_id <> 0 ->
  base_model (this w) = Some base ->
  objects base !! object_id = Some obj ->
  type_field_name (this w) = Some field ->
  obj !! field = Some t ->
  _child_models (this w) = Some d ->
  d !! t = Some (m, cls) ->
  _registry (_child_admin_site (this w)) !! m_name m = Some real_admin ->
  ParentModelAdmin.changeform_view fw request (Some object_id) rest w =
    (from_callee (Django.changeform_view real_admin request object_id rest),
     mkWorld (this w)
       (trace w ++ [CalledChild (admin_id real_admin) "changeform_view"])).
Proof.
  intros Hver Hnz Hbase Hobj Hname Hfield Hsetup Hd Hreg.
  unfold ParentModelAdmin.changeform_view. rewrite Hver.
  destruct (Z.eqb_spec object_id 0) as [|_]; [contradiction|].
  unfold bind at 1.
  rewrite (_get_type_by_object_id_found w base Hbase object_id obj field t)
    by assumption.
  unfold bind at 1.
  rewrite (_get_real_admin_found w d Hsetup t m cls real_admin) by assumption.
  reflexivity.
Qed.

Lemma changeform_view_delegates_witness :
  ParentModelAdmin.changeform_view Sample.fw (Sample.get "staff" [] "")
    (Some 2) (mkArgs [] []) Sample.ready
  = (Ok (Response "GalleryAdmin.changeform_view 2"),
     mkWorld (this Sample.ready)
       [CalledChild "GalleryAdmin" "changeform_view"]).
Proof.
  apply (changeform_view_delegates Sample.fw Sample.ready
           (Sample.get "staff" [] "") 2 (mkArgs [] []) Sample.Page
           {["kind" := 2]} "kind" 2
           (Py.dict [(1, (Sample.Article, Sample.ArticleAdmin));
                     (2, (Sample.Gallery, Sample.GalleryAdmin))])
           Sample.Gallery Sample.GalleryAdmin
           (Sample.child "GalleryAdmin" Sample.Gallery));
    solve [reflexivity | discriminate].
Defined.

(** X16: without an object id, with a falsy one, or before Django 1.7,
    [changeform_view] is the inherited one: no object is looked up and no
    child admin entered, whatever the state of the setup. *)
Theorem changeform_view_inherited (fw : Framework) (w : World)
    (request : HttpRequest) (object_id : option Z) (rest : CallArgs) :
  version_ge (VERSION fw) (1, 7)%nat = false
  \/ object_id = None \/ object_id = Some 0 ->
  ParentModelAdmin.changeform_view fw request object_id rest w =
    (from_callee (super_changeform_view fw request object_id rest), w).
Proof.
  intros Hcase. unfold ParentModelAdmin.changeform_view.
  destruct (version_ge (VERSION fw) (1, 7)%nat); [|reflexivity].
  destruct Hcase as [Hver|[->| ->]]; [discriminate | reflexivity..].
Qed.

Lemma changeform_view_inherited_witness :
  ParentModelAdmin.changeform_view Sample.fw (Sample.get "staff" [] "") None
    (mkArgs [] []) (mkWorld Sample.fresh [])
  = (Ok (Response "ModelAdmin.changeform_view"), mkWorld Sample.fresh []).
Proof.
  apply (changeform_view_inherited Sample.fw (mkWorld Sample.fresh [])
           (Sample.get "staff" [] "") None (mkArgs [] [])).
  right. left. reflexivity.
Defined.

(** *** The type-selection page *)

(** The templates that [render_add_type_form] passes on: the admin's
    [add_type_template] when it is set and not empty, the defaults
    otherwise. *)
Lemma render_add_type_form_eq (fw : Framework) (w : World)
    (request : HttpRequest) (context : Context) (form_url : string) :
  let templates :=
    match add_type_template (this w) with
    | Some t =>
        if String.eqb t "" then default_templates (model (this w)) else [t]
    | None => default_templates (model (this w))
    end in
  render_add_type_form fw request context form_url w =
    (Ok (render_to_response templates
           (list_to_map
              [("has_change_permission",
                 CBool (has_change_permission fw request));
               ("form_url", CText form_url);
               ("opts", COpts (model (this w)));
               ("add", CBool true);
               ("save_on_top", CBool (save_on_top fw))] ∪ context)
           (site_name (admin_site (this w)))),
     mkWorld (this w) (trace w ++ [Rendered templates])).
Proof.
  unfold render_add_type_form, default_templates. unfold_monad.
  destruct (add_type_template (this w)) as [t|]; [|reflexivity].
  now destruct (String.eqb t "").
Qed.

(** X17: [render_add_type_form] renders the admin's own
    [add_type_template] when one is set and not empty; when it is [None]
    or the empty text, it tries the three default templates, from the one
    of the model to the general one.  In the context that it renders, its
    own five entries replace entries of the same name in the context it
    was given, and every other entry of that context is kept. *)
Theorem render_add_type_form_context (fw : Framework) (w : World)
    (request : HttpRequest) (context : Context) (form_url : string) :
  exists (templates : list string) (rendered : Context),
    render_add_type_form fw request context form_url w
    = (Ok (render_to_response templates rendered
             (site_name (admin_site (this w)))),
       mkWorld (this w) (trace w ++ [Rendered templates]))
    /\ (forall t, add_type_template (this w) = Some t -> t <> "" ->
        templates = [t])
    /\ (add_type_template (this w) = Some "" ->
        templates = default_templates (model (this w)))
    /\ (add_type_template (this w) = None ->
        templates = default_templates (model (this w)))
    /\ rendered !! "has_change_permission"
       = Some (CBool (has_change_permission fw request))
    /\ rendered !! "form_url" = Some (CText form_url)
    /\ rendered !! "opts" = Some (COpts (model (this w)))
    /\ rendered !! "add" = Some (CBool true)
    /\ rendered !! "save_on_top" = Some (CBool (save_on_top fw))
    /\ (forall key : string,
          ~ In key ["has_change_permission"; "form_url"; "opts"; "add";
                    "save_on_top"] ->
          rendered !! key = context !! key).
Proof.
  eexists _, _. split; [apply render_add_type_form_eq|].
  split; [|split; [|split]].
  - intros t -> Hne. destruct (String.eqb_spec t ""); [contradiction|].
    reflexivity.
  - now intros ->.
  - now intros ->.
  - do 5 (split; [apply lookup_union_Some_l; reflexivity|]).
    intros key Hkey. apply lookup_union_r.
    apply not_elem_of_list_to_map_1. intros Hin. apply Hkey.
    apply list_elem_of_In in Hin. exact Hin.
Qed.

(** The sample admin with a template of its own, and a context that
    already has [add] and [title]; and the same admin with an empty
    template. *)
Lemma render_add_type_form_context_witness :
  (exists (templates : list string) (rendered : Context),
     render_add_type_form Sample.fw (Sample.get "staff" [] "")
       (list_to_map [("add", CBool false); ("title", CText "Add page")])
       "?x=1"
       (mkWorld (__init__ (Some Sample.Page) None None
                   (Some "pages/choose_type.html") Sample.Page Sample.site) [])
     = (Ok (render_to_response templates rendered "admin"),
        mkWorld (__init__ (Some Sample.Page) None None
                   (Some "pages/choose_type.html") Sample.Page Sample.site)
          [Rendered templates])
     /\ templates = ["pages/choose_type.html"]
     /\ rendered !! "add" = Some (CBool true)
     /\ rendered !! "title" = Some (CText "Add page"))
  /\ (exists (templates : list string) (rendered : Context),
        render_add_type_form Sample.fw (Sample.get "staff" [] "") ∅ ""
          (mkWorld (__init__ (Some Sample.Page) None None (Some "")
                      Sample.Page Sample.site) [])
        = (Ok (render_to_response templates rendered "admin"),
           mkWorld (__init__ (Some Sample.Page) None None (Some "")
                      Sample.Page Sample.site) [Rendered templates])
        /\ templates = ["admin/pages/page/add_type_form.html";
                        "admin/pages/add_type_form.html";
                        "admin/add_type_form.html"]).
Proof.
  split.
  - destruct (render_add_type_form_context Sample.fw
                (mkWorld (__init__ (Some Sample.Page) None None
                            (Some "pages/choose_type.html") Sample.Page
                            Sample.site) [])
                (Sample.get "staff" [] "")
                (list_to_map
                   [("add", CBool false); ("title", CText "Add page")])
                "?x=1")
      as (templates & rendered & Hview & Hown & _ & _ & _ & _ & _ & Hadd
          & _ & Hkept).
    exists templates, rendered. split; [exact Hview|].
    split;
      [apply (Hown "pages/choose_type.html"); [reflexivity | discriminate]|].
    split; [exact Hadd|].
    rewrite Hkept; [reflexivity|].
    simpl. intros [H|[H|[H|[H|[H|[]]]]]]; discriminate H.
  - destruct (render_add_type_form_context Sample.fw
                (mkWorld (__init__ (Some Sample.Page) None None (Some "")
                            Sample.Page Sample.site) [])
                (Sample.get "staff" [] "") ∅ "")
      as (templates & rendered & Hview & _ & Hempty & _).
    exists templates, rendered. split; [exact Hview|].
    rewrite Hempty; reflexivity.
Defined.

(** X18: for a user who may add, an admin whose [child_models] is empty
    cannot offer a choice: [add_type_view] raises the [IndexError] of
    [choices[0]], before any form is built. *)
Theorem add_type_view_no_choices (fw : Framework) (w : World)
    (request : HttpRequest) (form_url : string) :
  has_add_permission fw request = true ->
  child_models (this w) = Some [] ->
  add_type_view fw request form_url w
  = (Raise (mkExn IndexError ByBuiltin), w).
Proof.
  intros Hperm Hmodels. unfold add_type_view. rewrite Hperm. cbn [negb].
  unfold get_child_type_choices, get_child_models. unfold_monad.
  now rewrite Hmodels.
Qed.

Lemma add_type_view_no_choices_witness :
  add_type_view Sample.fw (Sample.get "staff" [] "") ""
    (mkWorld (__init__ (Some Sample.Page) (Some []) (Some "kind") None
                Sample.Page Sample.site) [])
  = (Raise (mkExn IndexError ByBuiltin),
     mkWorld (__init__ (Some Sample.Page) (Some []) (Some "kind") None
                Sample.Page Sample.site) []).
Proof.
  apply (add_type_view_no_choices Sample.fw
           (mkWorld (__init__ (Some Sample.Page) (Some []) (Some "kind") None
                       Sample.Page Sample.site) [])
           (Sample.get "staff" [] "") ""); reflexivity.
Defined.

(** What [add_type_view] does with two or more choices. *)
Lemma add_type_view_several (fw : Framework) (w : World)
    (request : HttpRequest) (form_url : string)
    (kv kv' : Z * (Model * AdminClass))
    (l : list (Z * (Model * AdminClass))) :
  has_add_permission fw request = true ->
  child_models (this w) = Some (kv :: kv' :: l) ->
  let choices :=
    map (fun kv => (kv.1, verbose_name kv.2.1)) (kv :: kv' :: l) in
  let form :=
    set_choices
      (ProxyChoiceForm
         (if String.eqb (method request) "POST" then Some (POST request)
          else None) kv.1)
      choices in
  let built := mkWorld (this w) (trace w ++ [FormBuilt]) in
  add_type_view fw request form_url w =
    if is_valid form then
      (Ok (HttpResponseRedirect
             ("?type=" ++ cleaned_type form ++ extra_qs request)), built)
    else
      render_add_type_form fw request
        (list_to_map
           [("title", CText ("Add " ++ verbose_name (model (this w))));
            ("adminform", CForm form);
            ("is_popup",
              CBool (bool_decide (is_Some (POST request !! "_popup"))
                     || bool_decide (is_Some (GET request !! "_popup"))));
            ("media", CText (self_media fw ++ form_media fw));
            ("errors", CErrors (errors_of form));
            ("app_label", CText (app_label (model (this w))))])
        form_url built.
Proof.
  intros Hperm Hmodels choices form built. subst choices form built.
  unfold add_type_view. rewrite Hperm. cbn [negb].
  unfold get_child_type_choices, get_child_models, extra_qs.
  unfold_monad. rewrite Hmodels. cbn [map length Nat.eqb fst].
  match goal with |- context [is_valid ?f] => destruct (is_valid f) end;
    reflexivity.
Qed.

(** X19: with two or more choices, a request that is no POST is never
    redirected: [add_type_view] builds the unbound form, preselecting the
    first choice and offering all of them in the order of [child_models],
    and renders it without errors. *)
Theorem add_type_view_shows_form (fw : Framework) (w : World)
    (request : HttpRequest) (form_url : string)
    (kv kv' : Z * (Model * AdminClass))
    (l : list (Z * (Model * AdminClass))) :
  has_add_permission fw request = true ->
  child_models (this w) = Some (kv :: kv' :: l) ->
  method request <> "POST" ->
  exists (templates : list string) (rendered : Context),
    add_type_view fw request form_url w
    = (Ok (render_to_response templates rendered
             (site_name (admin_site (this w)))),
       mkWorld (this w) (trace w ++ [FormBuilt; Rendered templates]))
    /\ rendered !! "adminform"
       = Some (CForm
                 {| type_label := "Type"; data := None; initial := kv.1;
                    choices :=
                      map (fun kv => (kv.1, verbose_name kv.2.1))
                        (kv :: kv' :: l) |})
    /\ rendered !! "errors" = Some (CErrors [])
    /\ rendered !! "form_url" = Some (CText form_url).
Proof.
  intros Hperm Hmodels Hmethod.
  rewrite (add_type_view_several fw w request form_url kv kv' l Hperm Hmodels).
  destruct (String.eqb_spec (method request) "POST"); [contradiction|].
  cbv zeta. change (is_valid _) with false. cbv iota.
  rewrite render_add_type_form_eq. cbn [this trace].
  eexists _, _. split; [now rewrite <- app_assoc|].
  split; [reflexivity|]. split; reflexivity.
Qed.

Lemma add_type_view_shows_form_witness :
  exists (templates : list string) (rendered : Context),
    add_type_view Sample.fw (Sample.get "staff" [] "") "" Sample.ready
    = (Ok (render_to_response templates rendered "admin"),
       mkWorld (this Sample.ready) [FormBuilt; Rendered templates])
    /\ rendered !! "adminform"
       = Some (CForm
                 {| type_label := "Type"; data := None; initial := 1;
                    choices := [(1, "article"); (2, "gallery")] |})
    /\ rendered !! "errors" = Some (CErrors [])
    /\ rendered !! "form_url" = Some (CText "").
Proof.
  apply (add_type_view_shows_form Sample.fw Sample.ready
           (Sample.get "staff" [] "") ""
           (1, (Sample.Article, Sample.ArticleAdmin))
           (2, (Sample.Gallery, Sample.GalleryAdmin)) []);
    solve [reflexivity | discriminate].
Defined.

(** X20: with two or more choices, a POST whose [type] field is the text
    of one of the choice keys is answered by the redirect to [?type=] that
    text, followed by the query string of the request; the form has been
    built and nothing rendered. *)
Theorem add_type_view_accepts_choice (fw : Framework) (w : World)
    (request : HttpRequest) (form_url : string)
    (kv kv' : Z * (Model * AdminClass))
    (l : list (Z * (Model * AdminClass))) (v : string) (k : Z) :
  has_add_permission fw request = true ->
  child_models (this w) = Some (kv :: kv' :: l) ->
  method request = "POST" ->
  POST request !! "type" = Some v ->
  In k (map fst (kv :: kv' :: l)) ->
  v = Py.str k ->
  add_type_view fw request form_url w =
    (Ok (HttpResponseRedirect ("?type=" ++ v ++ extra_qs request)),
     mkWorld (this w) (trace w ++ [FormBuilt])).
Proof.
  intros Hperm Hmodels Hmethod Hpost Hk Hv.
  rewrite (add_type_view_several fw w request form_url kv kv' l Hperm Hmodels).
  cbv zeta. rewrite Hmethod. cbn [String.eqb Ascii.eqb Bool.eqb].
  assert (Hvalid :
    is_valid
      (set_choices (ProxyChoiceForm (Some (POST request)) kv.1)
         (map (fun kv => (kv.1, verbose_name kv.2.1)) (kv :: kv' :: l)))
    = true).
  { unfold is_valid. cbn [data set_choices ProxyChoiceForm choices].
    rewrite Hpost. apply existsb_exists.
    apply in_map_iff in Hk as [[k' mc] [Hfst Hin]]. cbn in Hfst. subst k'.
    exists (k, verbose_name mc.1). split.
    - apply in_map_iff. exists (k, mc). split; [reflexivity | exact Hin].
    - cbn. subst v. apply String.eqb_refl. }
  rewrite Hvalid. unfold cleaned_type.
  cbn [data set_choices ProxyChoiceForm]. cbn. now rewrite Hpost.
Qed.

Lemma add_type_view_accepts_choice_witness :
  add_type_view Sample.fw
    (mkRequest "staff" "POST" ∅ {["type" := "2"]} "_popup=1") ""
    Sample.ready
  = (Ok (HttpResponseRedirect "?type=2&_popup=1"),
     mkWorld (this Sample.ready) [FormBuilt]).
Proof.
  apply (add_type_view_accepts_choice Sample.fw Sample.ready
           (mkRequest "staff" "POST" ∅ {["type" := "2"]} "_popup=1") ""
           (1, (Sample.Article, Sample.ArticleAdmin))
           (2, (Sample.Gallery, Sample.GalleryAdmin)) [] "2" 2);
    try reflexivity.
  simpl. auto.
Defined.

(** X21: with two or more choices, a POST without a [type] field, or with
    one that is the text of no choice key, is not redirected: the bound
    form is rendered again with an error on [type]. *)
Theorem add_type_view_rejects_choice (fw : Framework) (w : World)
    (request : HttpRequest) (form_url : string)
    (kv kv' : Z * (Model * AdminClass))
    (l : list (Z * (Model * AdminClass))) :
  has_add_permission fw request = true ->
  child_models (this w) = Some (kv :: kv' :: l) ->
  method request = "POST" ->
  (forall v, POST request !! "type" = Some v ->
     forall k, In k (map fst (kv :: kv' :: l)) -> v <> Py.str k) ->
  exists (templates : list string) (rendered : Context),
    add_type_view fw request form_url w
    = (Ok (render_to_response templates rendered
             (site_name (admin_site (this w)))),
       mkWorld (this w) (trace w ++ [FormBuilt; Rendered templates]))
    /\ rendered !! "errors" = Some (CErrors ["type"])
    /\ rendered !! "adminform"
       = Some (CForm
                 {| type_label := "Type"; data := Some (POST request);
                    initial := kv.1;
                    choices :=
                      map (fun kv => (kv.1, verbose_name kv.2.1))
                        (kv :: kv' :: l) |}).
Proof.
  intros Hperm Hmodels Hmethod Hbad.
  rewrite (add_type_view_several fw w request form_url kv kv' l Hperm Hmodels).
  cbv zeta. rewrite Hmethod. cbn [String.eqb Ascii.eqb Bool.eqb].
  assert (Hvalid :
    is_valid
      (set_choices (ProxyChoiceForm (Some (POST request)) kv.1)
         (map (fun kv => (kv.1, verbose_name kv.2.1)) (kv :: kv' :: l)))
    = false).
  { unfold is_valid. cbn [data set_choices ProxyChoiceForm choices].
    destruct (POST request !! "type") as [v|] eqn:Hpost; [|reflexivity].
    apply not_true_is_false. intros Hex.
    apply existsb_exists in Hex as [[k name] [Hin Heq]].
    apply in_map_iff in Hin as [[k' mc] [[= <- _] Hin]].
    apply String.eqb_eq in Heq. cbn in Heq.
    apply (Hbad v eq_refl k'); [|exact Heq].
    apply in_map_iff. exists (k', mc). split; [reflexivity | exact Hin]. }
  rewrite Hvalid. rewrite render_add_type_form_eq. cbn [this trace].
  eexists _, _. split; [now rewrite <- app_assoc|].
  unfold errors_of. cbn [data set_choices ProxyChoiceForm]. rewrite Hvalid.
  split; reflexivity.
Qed.

Lemma add_type_view_rejects_choice_witness :
  exists (templates : list string) (rendered : Context),
    add_type_view Sample.fw (mkRequest "staff" "POST" ∅ {["type" := "7"]} "")
      "" Sample.ready
    = (Ok (render_to_response templates rendered "admin"),
       mkWorld (this Sample.ready) [FormBuilt; Rendered templates])
    /\ rendered !! "errors" = Some (CErrors ["type"])
    /\ rendered !! "adminform"
       = Some (CForm
                 {| type_label := "Type"; data := Some {["type" := "7"]};
                    initial := 1;
                    choices := [(1, "article"); (2, "gallery")] |}).
Proof.
  destruct (add_type_view_rejects_choice Sample.fw Sample.ready
              (mkRequest "staff" "POST" ∅ {["type" := "7"]} "") ""
              (1, (Sample.Article, Sample.ArticleAdmin))
              (2, (Sample.Gallery, Sample.GalleryAdmin)) []
              eq_refl eq_refl eq_refl)
    as (templates & rendered & Hview & Herrors & Hform).
  - intros v [= <-] k [<-|[<-|[]]]; discriminate.
  - exists templates, rendered.
    split; [exact Hview|]. split; [exact Herrors | exact Hform].
Defined.

(** *** get_urls *)

(** A [_lazy_setup] that returns leaves the admin set up; it has touched
    neither the trace nor the configuration. *)
Lemma _lazy_setup_returns_set_up (fw : Framework) (w w1 : World) :
  _lazy_setup fw w = (Ok tt, w1) ->
  _is_setup (this w1) = true
  /\ model (this w1) = model (this w)
  /\ child_models (this w1) = child_models (this w).
Proof.
  destruct (_is_setup (this w)) eqn:Hsetup.
  - unfold _lazy_setup, bind at 1, attr. rewrite Hsetup.
    unfold ret. now intros [= <-].
  - destruct (child_models (this w)) as [l|] eqn:Hmodels.
    + rewrite (_lazy_setup_first_run fw w l Hsetup Hmodels).
      destruct (for_each l _ w) as [[[]|e1] w2] eqn:Hloop; [|discriminate].
      destruct (register_loop_frame fw l w w2 _ Hloop) as [reg ->].
      intros [= <-]. cbn. auto.
    + unfold _lazy_setup, get_child_models. unfold_monad.
      rewrite Hsetup, Hmodels. discriminate.
Qed.

(** The lookups and the loop over the child URLs do not change the admin. *)
Lemma collect_dummy_urls_reads (l : list (Z * (Model * AdminClass)))
    (acc : list URLPattern) (w : World) :
  this (collect_dummy_urls l acc w).2 = this w.
Proof.
  now apply (respects_collect_dummy_urls (fun s => s = this w)
               (fun _ => True) (fun _ _ => Logic.I) (fun _ => Logic.I)
               (fun _ => Logic.I) l acc w).
Qed.

(** The URLs of the admin itself and the redirect URLs, as [get_urls]
    makes them from the inherited ones. *)
Lemma get_urls_returns (fw : Framework) (w w' : World)
    (result : list URLPattern) :
  ParentModelAdmin.get_urls fw w = (Ok result, w') ->
  exists (inherited dummy_urls : list URLPattern) (w1 : World),
    super_get_urls fw = Ok inherited
    /\ _lazy_setup fw w = (Ok tt, w1)
    /\ this w' = this w1
    /\ result =
       ((if version_lt (VERSION fw) (1, 9)%nat then
           map (fun oldurl =>
                  if bool_decide
                       (name oldurl = name (new_change_url (model (this w))))
                  then new_change_url (model (this w)) else oldurl)
             inherited
         else filter (fun pat => has_name pat = true) inherited)
        ++ [subclass_url] ++ dummy_urls
        ++ (if version_lt (VERSION fw) (1, 9)%nat then []
            else filter (fun pat => has_name pat = false) inherited))%list.
Proof.
  unfold ParentModelAdmin.get_urls. unfold bind at 1, callee at 1.
  destruct (super_get_urls fw) as [inherited|c]; cbn [from_callee];
    [|discriminate].
  unfold bind at 1, attr at 1. cbv zeta. unfold bind at 1.
  destruct (_lazy_setup fw w) as [[[]|e] w1] eqn:Hsetup; [|discriminate].
  unfold bind at 1, get_child_models at 1. unfold bind at 1, attr at 1.
  destruct (child_models (this w1)) as [l|]; [|discriminate].
  unfold ret at 1. unfold bind at 1.
  pose proof (collect_dummy_urls_reads l [] w1) as Hreads.
  destruct (collect_dummy_urls l [] w1) as [[dummy_urls|e] w2];
    [|discriminate].
  unfold ret. intros [= <- <-].
  exists inherited, dummy_urls, w1.
  repeat split; [exact Hreads|].
  unfold new_change_url, subclass_url.
  now destruct (version_lt (VERSION fw) (1, 9)%nat).
Qed.

(** X22: a [get_urls] that returns has run the lazy setup: the admin is
    set up afterwards, so that the views, which are reached through these
    URLs only, find [_child_models]. *)
Theorem get_urls_runs_setup (fw : Framework) (w w' : World)
    (result : list URLPattern) :
  ParentModelAdmin.get_urls fw w = (Ok result, w') ->
  _is_setup (this w') = true
  /\ (forall l, _is_setup (this w) = false ->
        child_models (this w) = Some l ->
        _child_models (this w') = Some (Py.dict l)).
Proof.
  intros Hurls.
  destruct (get_urls_returns fw w w' result Hurls)
    as (inherited & dummy_urls & w1 & _ & Hsetup & Hthis & _).
  rewrite Hthis. split.
  - now apply (_lazy_setup_returns_set_up fw w w1).
  - intros l Hnot Hmodels.
    rewrite (_lazy_setup_first_run fw w l Hnot Hmodels) in Hsetup.
    destruct (for_each l _ w) as [[[]|e] w2]; [|discriminate].
    now injection Hsetup as <-.
Qed.

Lemma get_urls_runs_setup_witness :
  _is_setup (this (ParentModelAdmin.get_urls Sample.fw
                     (mkWorld Sample.fresh [])).2) = true
  /\ (forall l, _is_setup (this (mkWorld Sample.fresh [])) = false ->
        child_models (this (mkWorld Sample.fresh [])) = Some l ->
        _child_models (this (ParentModelAdmin.get_urls Sample.fw
                               (mkWorld Sample.fresh [])).2)
        = Some (Py.dict l)).
Proof.
  apply (get_urls_runs_setup Sample.fw (mkWorld Sample.fresh [])
           (ParentModelAdmin.get_urls Sample.fw (mkWorld Sample.fresh [])).2
           (match (ParentModelAdmin.get_urls Sample.fw
                     (mkWorld Sample.fresh [])).1 with
            | Ok urls => urls
            | Raise _ => []
            end)).
  reflexivity.
Defined.

(** [_get_real_admin] reads the admin only, and hands the world back. *)
Lemma _get_real_admin_reads (t : Z) (w w0 : World) :
  this w = this w0 ->
  (_get_real_admin t w).1 = (_get_real_admin t w0).1
  /\ (_get_real_admin t w).2 = w.
Proof.
  intros Hthis. unfold _get_real_admin. unfold_monad. rewrite <- Hthis.
  destruct (_child_models (this w)) as [d|]; [|now split].
  destruct (d !! t) as [[m cls]|]; cbn; [|now split].
  rewrite <- Hthis.
  now destruct (_registry (_child_admin_site (this w)) !! m_name m).
Qed.

(** The loop of [get_urls], when it returns: the admin of each child model
    in turn, and the URLs of these admins one after the other. *)
Lemma collect_dummy_urls_returns (l : list (Z * (Model * AdminClass))) :
  forall (acc result : list URLPattern) (w w2 : World),
    collect_dummy_urls l acc w = (Ok result, w2) ->
    exists (admins : list ModelAdmin) (child_urls : list (list URLPattern)),
      Forall2 (fun kv a => (_get_real_admin kv.1 w).1 = Ok a) l admins
      /\ Forall2 (fun a urls => Django.get_urls a = Ok urls) admins child_urls
      /\ result = (acc ++ concat child_urls)%list.
Proof.
  induction l as [|kv l IH]; intros acc result w w2; simpl.
  - unfold ret. intros [= <- _]. exists [], [].
    repeat split; [constructor | constructor | now rewrite app_nil_r].
  - unfold bind at 1.
    destruct (_get_real_admin_reads kv.1 w w eq_refl) as [_ Hworld].
    destruct (_get_real_admin kv.1 w) as [[a|e] w1] eqn:Hadmin;
      [|discriminate].
    cbn in Hworld. subst w1.
    unfold bind at 1, emit at 1. unfold bind at 1, callee at 1.
    destruct (Django.get_urls a) as [more|c] eqn:Hmore; cbn [from_callee];
      [|discriminate].
    intros Hrest.
    destruct (IH _ _ _ _ Hrest) as (admins & child_urls & Hadmins & Hurls & ->).
    exists (a :: admins), (more :: child_urls). split; [|split].
    + constructor; [now rewrite Hadmin|].
      eapply Forall2_impl; [exact Hadmins|].
      intros kv' a' Ha'. cbn beta in Ha'. rewrite <- Ha'.
      now apply _get_real_admin_reads.
    + now constructor.
    + cbn [concat]. now rewrite <- app_assoc.
Qed.

(** X23: the URLs that [get_urls] returns are, in this order: the admin's
    own patterns, the catch-all pattern of [subclass_view], the URLs of
    the child admins, one admin after the other in the order of
    [child_models], and the redirect patterns.  Before Django 1.9 the own
    patterns are the inherited ones in their order, each pattern of the
    change view's name replaced by the pattern for numeric ids that leads
    to [change_view], and there are no redirect patterns.  From Django 1.9
    on the own patterns are the inherited ones that have a name and the
    redirect patterns the inherited ones that have none, each in their
    order. *)
Theorem get_urls_pattern_order (fw : Framework) (w w' : World)
    (result : list URLPattern) :
  ParentModelAdmin.get_urls fw w = (Ok result, w') ->
  exists (inherited : list URLPattern)
         (l : list (Z * (Model * AdminClass)))
         (admins : list ModelAdmin)
         (child_urls : list (list URLPattern)),
    super_get_urls fw = Ok inherited
    /\ child_models (this w) = Some l
    /\ Forall2 (fun kv a => (_get_real_admin kv.1 w').1 = Ok a) l admins
    /\ Forall2 (fun a urls => Django.get_urls a = Ok urls) admins child_urls
    /\ (version_lt (VERSION fw) (1, 9)%nat = true ->
        result =
          (map (fun pat =>
                  if bool_decide
                       (name pat = name (new_change_url (model (this w))))
                  then new_change_url (model (this w)) else pat)
             inherited
           ++ subclass_url :: concat child_urls)%list)
    /\ (version_lt (VERSION fw) (1, 9)%nat = false ->
        result =
          (filter (fun pat => has_name pat = true) inherited
           ++ subclass_url :: concat child_urls
           ++ filter (fun pat => has_name pat = false) inherited)%list).
Proof.
  unfold ParentModelAdmin.get_urls. unfold bind at 1, callee at 1.
  destruct (super_get_urls fw) as [inherited|c]; cbn [from_callee];
    [|discriminate].
  unfold bind at 1, attr at 1. cbv zeta. unfold bind at 1.
  destruct (_lazy_setup fw w) as [[[]|e] w1] eqn:Hsetup; [|discriminate].
  destruct (_lazy_setup_returns_set_up fw w w1 Hsetup) as (_ & _ & Hsame).
  unfold bind at 1, get_child_models at 1. unfold bind at 1, attr at 1.
  destruct (child_models (this w1)) as [l|] eqn:Hmodels; [|discriminate].
  unfold ret at 1. unfold bind at 1.
  pose proof (collect_dummy_urls_reads l [] w1) as Hreads.
  destruct (collect_dummy_urls l [] w1) as [[dummy_urls|e] w2] eqn:Hloop;
    [|discriminate].
  cbn in Hreads.
  destruct (collect_dummy_urls_returns l _ _ _ _ Hloop)
    as (admins & child_urls & Hadmins & Hurls & ->).
  unfold ret. intros [= <- <-].
  exists inherited, l, admins, child_urls.
  split; [reflexivity|]. split; [now rewrite <- Hsame|].
  split; [|split; [exact Hurls|]].
  - eapply Forall2_impl; [exact Hadmins|].
    intros kv a Ha. cbn beta in Ha. rewrite <- Ha.
    now apply _get_real_admin_reads.
  - unfold new_change_url, subclass_url. cbn [app].
    destruct (version_lt (VERSION fw) (1, 9)%nat);
      split; intros Hver; try discriminate Hver.
    + now rewrite app_nil_r.
    + reflexivity.
Qed.

(** The sample, of Django 1.8: the change pattern replaced, then the
    catch-all, then the history pages of the two child admins. *)
Lemma get_urls_pattern_order_witness :
  exists (admins : list ModelAdmin) (child_urls : list (list URLPattern)),
    Forall2
      (fun kv a =>
         (_get_real_admin kv.1
            (mkWorld (this Sample.ready)
               [CalledChild "ArticleAdmin" "get_urls";
                CalledChild "GalleryAdmin" "get_urls"])).1 = Ok a)
      [(1, (Sample.Article, Sample.ArticleAdmin));
       (2, (Sample.Gallery, Sample.GalleryAdmin))] admins
    /\ Forall2 (fun a urls => Django.get_urls a = Ok urls) admins child_urls
    /\ [url "^$" (AdminView "self" "changelist_view")
          (Some "pages_page_changelist");
        url "^add/$" (AdminView "self" "add_view") (Some "pages_page_add");
        new_change_url Sample.Page;
        subclass_url;
        url "^(.+)/history/$" (AdminView "ArticleAdmin" "history_view")
          (Some "pages_article_history");
        url "^(.+)/history/$" (AdminView "GalleryAdmin" "history_view")
          (Some "pages_gallery_history")]
       = (map (fun pat =>
                 if bool_decide (name pat = name (new_change_url Sample.Page))
                 then new_change_url Sample.Page else pat)
            [url "^$" (AdminView "self" "changelist_view")
               (Some "pages_page_changelist");
             url "^add/$" (AdminView "self" "add_view")
               (Some "pages_page_add");
             url "^(.+)/$" (AdminView "self" "change_view")
               (Some "pages_page_change")]
          ++ subclass_url :: concat child_urls)%list.
Proof.
  destruct (get_urls_pattern_order Sample.fw (mkWorld Sample.fresh [])
              (mkWorld (this Sample.ready)
                 [CalledChild "ArticleAdmin" "get_urls";
                  CalledChild "GalleryAdmin" "get_urls"])
              [url "^$" (AdminView "self" "changelist_view")
                 (Some "pages_page_changelist");
               url "^add/$" (AdminView "self" "add_view")
                 (Some "pages_page_add");
               new_change_url Sample.Page;
               subclass_url;
               url "^(.+)/history/$" (AdminView "ArticleAdmin" "history_view")
                 (Some "pages_article_history");
               url "^(.+)/history/$" (AdminView "GalleryAdmin" "history_view")
                 (Some "pages_gallery_history")]
              eq_refl)
    as (inherited & l & admins & child_urls & Hsuper & Hmodels & Hadmins
        & Hurls & Hold & _).
  injection Hsuper as <-. injection Hmodels as <-.
  exists admins, child_urls.
  split; [exact Hadmins|]. split; [exact Hurls|].
  apply Hold. reflexivity.
Defined.

(** *** What the views leave alone *)

(** X24: the views and the lookups never change the admin: whatever they
    return or raise, the attributes of the admin, its child models and the
    registry of its child admin site are afterwards what they were.  Only
    [register_child], [_lazy_setup] and [get_urls] assign. *)
Theorem readers_leave_admin_unchanged (fw : Framework) (c : Call)
    (w : World) :
  is_reader c = true -> this (run fw c w).2 = this w.
Proof.
  intros Hreader.
  destruct c; try discriminate Hreader; unfold run;
    apply (respects_outcome (fun s => s = this w) (fun _ => True));
    try reflexivity;
    [ apply respects_get_child_models
    | apply respects_get_child_type_choices
    | apply respects__get_real_admin
    | apply respects_add_view
    | apply respects__get_type_by_object_id
    | apply respects_change_view
    | apply respects_changeform_view
    | apply respects_subclass_view
    | apply respects_add_type_view
    | apply respects_render_add_type_form ];
    intros; exact Logic.I.
Qed.

Lemma readers_leave_admin_unchanged_witness :
  this (run Sample.fw
          (call_subclass_view (Sample.get "staff" [] "") "1/history/")
          Sample.ready).2
  = this Sample.ready.
Proof.
  apply (readers_leave_admin_unchanged Sample.fw
           (call_subclass_view (Sample.get "staff" [] "") "1/history/")
           Sample.ready).
  reflexivity.
Defined.

(** X25: [add_type_view] never enters a child admin: all that it adds to
    the trace is the building of the form and the rendering of the page.
    So [add_view] enters none either for a request without type parameter
    or with the type 0; a child model configured under the key 0 cannot be
    added through [add_view]. *)
Theorem add_type_view_enters_no_child (fw : Framework)
    (request : HttpRequest) :
  (forall form_url : string,
     emits_only (fun ev => ~ enters_child ev)
       (add_type_view fw request form_url))
  /\ (no_type_parameter fw request ->
      forall (form_url : string) (extra_context : ExtraContext),
        emits_only (fun ev => ~ enters_child ev)
          (ParentModelAdmin.add_view fw request form_url extra_context)).
Proof.
  assert (Hview : forall form_url,
             emits_only (fun ev => ~ enters_child ev)
               (add_type_view fw request form_url)).
  { intros form_url w.
    destruct (has_add_permission fw request) eqn:Hperm.
    - destruct (child_models (this w)) as [[|kv [|kv' l]]|] eqn:Hmodels.
      + exists []. rewrite app_nil_r. split; [|constructor].
        unfold add_type_view. rewrite Hperm. cbn [negb].
        unfold get_child_type_choices, get_child_models. unfold_monad.
        now rewrite Hmodels.
      + exists []. rewrite app_nil_r. split; [|constructor].
        unfold add_type_view. rewrite Hperm. cbn [negb].
        unfold get_child_type_choices, get_child_models. unfold_monad.
        now rewrite Hmodels.
      + rewrite (add_type_view_several fw w request form_url kv kv' l
                   Hperm Hmodels). cbv zeta.
        match goal with |- context [is_valid ?f] => destruct (is_valid f) end.
        * exists [FormBuilt]. split; [reflexivity|].
          repeat constructor. intros [].
        * rewrite render_add_type_form_eq. cbn [snd this trace].
          eexists [FormBuilt; Rendered _].
          split; [now rewrite <- app_assoc|].
          repeat constructor; intros [].
      + exists []. rewrite app_nil_r. split; [|constructor].
        unfold add_type_view. rewrite Hperm. cbn [negb].
        unfold get_child_type_choices, get_child_models. unfold_monad.
        now rewrite Hmodels.
    - exists []. rewrite app_nil_r. split; [|constructor].
      unfold add_type_view. now rewrite Hperm. }
  split; [exact Hview|].
  intros Hno form_url extra_context w.
  unfold ParentModelAdmin.add_view, bind at 1.
  rewrite int_no_type_parameter by assumption.
  change (0 =? 0)%Z with true. cbv iota beta. apply Hview.
Qed.

(** The only child model of this admin has the key 0. *)
Lemma add_type_view_enters_no_child_witness :
  emits_only (fun ev => ~ enters_child ev)
    (ParentModelAdmin.add_view Sample.fw
       (Sample.get "staff" [("type", "0")] "type=0") "" None).
Proof.
  destruct (add_type_view_enters_no_child Sample.fw
              (Sample.get "staff" [("type", "0")] "type=0")) as [_ Hadd].
  apply Hadd. reflexivity.
Defined.

(** *** Configuration left out, or given twice *)

(** X26: an admin whose [child_models] is not defined cannot be used:
    [get_child_models] and [get_child_type_choices] raise
    [NotImplementedError], and so do [add_type_view] for a user who may
    add, the first [_lazy_setup], and [get_urls] once the inherited URLs
    are there.  None of them changes anything. *)
Theorem child_models_not_defined (fw : Framework) (w : World) :
  child_models (this w) = None ->
  get_child_models w = (Raise (mkExn NotImplementedError ByModule), w)
  /\ get_child_type_choices w
     = (Raise (mkExn NotImplementedError ByModule), w)
  /\ (forall (request : HttpRequest) (form_url : string),
        has_add_permission fw request = true ->
        add_type_view fw request form_url w
        = (Raise (mkExn NotImplementedError ByModule), w))
  /\ (_is_setup (this w) = false ->
      _lazy_setup fw w = (Raise (mkExn NotImplementedError ByModule), w)
      /\ forall inherited,
           super_get_urls fw = Ok inherited ->
           ParentModelAdmin.get_urls fw w
           = (Raise (mkExn NotImplementedError ByModule), w)).
Proof.
  intros Hmodels.
  assert (Hget : get_child_models w
                 = (Raise (mkExn NotImplementedError ByModule), w)).
  { unfold get_child_models. unfold_monad. now rewrite Hmodels. }
  assert (Hchoices : get_child_type_choices w
                     = (Raise (mkExn NotImplementedError ByModule), w)).
  { unfold get_child_type_choices, bind. now rewrite Hget. }
  split; [exact Hget|]. split; [exact Hchoices|]. split.
  - intros request form_url Hperm. unfold add_type_view. rewrite Hperm.
    cbn [negb]. unfold bind at 1. now rewrite Hchoices.
  - intros Hsetup.
    assert (Hlazy : _lazy_setup fw w
                    = (Raise (mkExn NotImplementedError ByModule), w)).
    { unfold _lazy_setup, bind at 1, attr at 1. rewrite Hsetup.
      unfold bind at 1. now rewrite Hget. }
    split; [exact Hlazy|]. intros inherited Hsuper.
    unfold ParentModelAdmin.get_urls, bind at 1, callee at 1.
    rewrite Hsuper. cbn [from_callee]. unfold bind at 1, attr at 1.
    cbv zeta. unfold bind at 1. now rewrite Hlazy.
Qed.

Lemma child_models_not_defined_witness :
  add_type_view Sample.fw (Sample.get "staff" [] "") ""
    (mkWorld Sample.bare [])
  = (Raise (mkExn NotImplementedError ByModule), mkWorld Sample.bare [])
  /\ ParentModelAdmin.get_urls Sample.fw (mkWorld Sample.bare [])
     = (Raise (mkExn NotImplementedError ByModule), mkWorld Sample.bare []).
Proof.
  destruct (child_models_not_defined Sample.fw (mkWorld Sample.bare [])
              eq_refl) as (_ & _ & Hview & Hsetup).
  split.
  - apply Hview. reflexivity.
  - destruct (Hsetup eq_refl) as [_ Hurls]. eapply Hurls. reflexivity.
Defined.

(** In [dict(pairs)], pairs after the last one with the key [k] do not
    matter for [k]. *)
Lemma dict_last_pair {V} (l1 l2 : list (Z * V)) (k : Z) (v : V) :
  ~ In k (map fst l2) ->
  Py.dict (l1 ++ (k, v) :: l2) !! k = Some v.
Proof.
  intros Hlater. unfold Py.dict. rewrite fold_left_app. cbn [fold_left].
  generalize (fold_left (fun m p => <[p.1 := p.2]> m) l1 (∅ : gmap Z V)).
  intros m0.
  assert (H : forall m : gmap Z V,
             fold_left (fun m p => <[p.1 := p.2]> m) l2 m !! k = m !! k).
  { induction l2 as [|[k' v'] l2 IH]; intros m; cbn [fold_left];
      [reflexivity|].
    rewrite IH by (intros Hin; apply Hlater; now right). cbn.
    apply lookup_insert_ne. intros ->. apply Hlater. now left. }
  rewrite H. cbn. apply lookup_insert_eq.
Qed.

(** X27: when [child_models] gives a type value more than once, the form
    of [add_type_view] offers every pair, but the dispatch knows one model
    per type value: after the setup [_child_models] holds, for a key, the
    model and admin class of the last pair with that key. *)
Theorem duplicate_type_value_last_wins (fw : Framework) (w w' : World)
    (l1 l2 : list (Z * (Model * AdminClass))) (k : Z) (m : Model)
    (cls : AdminClass) :
  _is_setup (this w) = false ->
  child_models (this w) = Some (l1 ++ (k, (m, cls)) :: l2)%list ->
  ~ In k (map fst l2) ->
  _lazy_setup fw w = (Ok tt, w') ->
  (exists d, _child_models (this w') = Some d /\ d !! k = Some (m, cls))
  /\ (get_child_type_choices w').1
     = Ok (map (fun kv => (kv.1, verbose_name kv.2.1))
             (l1 ++ (k, (m, cls)) :: l2)%list).
Proof.
  intros Hsetup Hmodels Hlater.
  rewrite (_lazy_setup_first_run fw w _ Hsetup Hmodels).
  destruct (for_each _ _ w) as [[[]|e] w1] eqn:Hloop; [|discriminate].
  destruct (register_loop_frame fw _ w w1 _ Hloop) as [reg ->].
  intros [= <-]. split.
  - eexists. split; [reflexivity|]. now apply dict_last_pair.
  - unfold get_child_type_choices, get_child_models. unfold_monad. cbn.
    now rewrite Hmodels.
Qed.

(** Two admins for the type 1: the gallery, given last, is the one that
    type 1 dispatches to. *)
Lemma duplicate_type_value_last_wins_witness :
  (fun w' =>
     (exists d, _child_models (this w') = Some d
                /\ d !! 1 = Some (Sample.Gallery, Sample.GalleryAdmin))
     /\ (get_child_type_choices w').1
        = Ok [(1, "article"); (1, "gallery")])
    (_lazy_setup Sample.fw
       (mkWorld
          (__init__ (Some Sample.Page)
             (Some [(1, (Sample.Article, Sample.ArticleAdmin));
                    (1, (Sample.Gallery, Sample.GalleryAdmin))])
             (Some "kind") None Sample.Page Sample.site) [])).2.
Proof.
  apply (duplicate_type_value_last_wins Sample.fw
           (mkWorld
              (__init__ (Some Sample.Page)
                 (Some [(1, (Sample.Article, Sample.ArticleAdmin));
                        (1, (Sample.Gallery, Sample.GalleryAdmin))])
                 (Some "kind") None Sample.Page Sample.site) [])
           _ [(1, (Sample.Article, Sample.ArticleAdmin))] [] 1
           Sample.Gallery Sample.GalleryAdmin);
    [reflexivity | reflexivity | intros [] | reflexivity].
Defined.
